(** * The rollup driver of the kanvas node: event loop, proposer gating,
      backup-sync gap filler and rollup configuration check.

    Shallow embedding of [components/node/rollup/driver/state.go]: the
    [Driver] struct and the locals of [eventLoop] become one record that is
    passed from select case to select case; the collaborators behind the
    interfaces ([DerivationPipeline], [ProposerIface], [Network], the backoff
    strategy) are the methods of a type class, so every theorem holds for
    every implementation of them. *)

From Stdlib Require Import ZArith List Bool String Lia.
Import ListNotations.
Open Scope Z_scope.

(** ** Machine integers *)

(** Go's [uint64]: values in [0, 2^64), every operation reduced modulo 2^64. *)
Module U64.
Definition modulus : Z := 2 ^ 64.
Definition max : Z := modulus - 1.
Definition wrap (z : Z) : Z := z mod modulus.
Definition add (a b : Z) : Z := wrap (a + b).
Definition sub (a b : Z) : Z := wrap (a - b).
(** [a / b] for [b <> 0]; Go panics when [b = 0]. *)
Definition div (a b : Z) : option Z :=
  if b =? 0 then None else Some (a / b).
Definition InRange (z : Z) : Prop := 0 <= z < modulus.
End U64.

(** Go's [int] on a 64-bit platform: two's complement in [-2^63, 2^63). *)
Module Int.
Definition wrap (z : Z) : Z := (z + 2 ^ 63) mod 2 ^ 64 - 2 ^ 63.
Definition add (a b : Z) : Z := wrap (a + b).
Definition InRange (z : Z) : Prop := - 2 ^ 63 <= z < 2 ^ 63.
End Int.

(** ** Values of package [eth] *)

(** [common.Hash] is a [[32]byte]; it is read here as the 256-bit number it
    spells, so that [bytes.Equal] on two hashes is equality of numbers. *)
Definition Hash : Type := Z.

(** [time.Duration]: nanoseconds. *)
Definition Duration : Type := Z.

Record BlockID : Type := mkBlockID { Hash_ : Hash; Number : Z }.

Record L1BlockRef : Type := mkL1BlockRef {
  L1Hash : Hash;
  L1Number : Z;
  L1ParentHash : Hash;
  L1Time : Z
}.

Record L2BlockRef : Type := mkL2BlockRef {
  L2Hash : Hash;
  L2Number : Z;
  L2ParentHash : Hash;
  L2Time_ : Z;
  L1Origin : BlockID;
  SequenceNumber : Z
}.

(** The zero value [eth.L1BlockRef{}]. *)
Definition zeroL1BlockRef : L1BlockRef := mkL1BlockRef 0 0 0 0.

Definition BlockID_eqb (a b : BlockID) : bool :=
  (Hash_ a =? Hash_ b) && (Number a =? Number b).

Definition L1BlockRef_eqb (a b : L1BlockRef) : bool :=
  (L1Hash a =? L1Hash b) && (L1Number a =? L1Number b) &&
  (L1ParentHash a =? L1ParentHash b) && (L1Time a =? L1Time b).

(** [L2BlockRef.ID()]. *)
Definition L2ID (r : L2BlockRef) : BlockID := mkBlockID (L2Hash r) (L2Number r).

(** Modelled from the spec: [eth.ExecutionPayload] is declared outside the
    driver; the driver only looks at its [ID()], a (hash, number) pair. *)
Record ExecutionPayload : Type := mkPayload {
  BlockHash : Hash;
  BlockNumber : Z
}.

Definition PayloadID (p : ExecutionPayload) : BlockID :=
  mkBlockID (BlockHash p) (BlockNumber p).

(** ** Go errors *)

(** An error value is a chain of wrapped errors, outermost first.  The
    sentinels are the ones [eventLoop] tests for; [New] is [errors.New], and
    [BlockHashMismatch] the [fmt.Errorf] of the start-proposer case. *)
Inductive ErrNode : Type :=
| IoEOF
| ErrReset
| ErrTemporary
| ErrCritical
| NotEnoughData
| New (msg : string)
| BlockHashMismatch (head received : Hash).

Definition GoErr : Type := list ErrNode.

(** The [error] interface: [None] is [nil]. *)
Definition error : Type := option GoErr.

Definition ErrNode_eqb (a b : ErrNode) : bool :=
  match a, b with
  | IoEOF, IoEOF => true
  | ErrReset, ErrReset => true
  | ErrTemporary, ErrTemporary => true
  | ErrCritical, ErrCritical => true
  | NotEnoughData, NotEnoughData => true
  | New m, New n => String.eqb m n
  | BlockHashMismatch h r, BlockHashMismatch h' r' => (h =? h') && (r =? r')
  | _, _ => false
  end.

(** [err == io.EOF]: identity with the sentinel, no unwrapping. *)
Definition isEOF (err : GoErr) : bool :=
  match err with
  | [IoEOF] => true
  | _ => false
  end.

(** [errors.Is(err, target)]: some error of the chain is the target. *)
Definition errors_Is (err : GoErr) (target : ErrNode) : bool :=
  existsb (ErrNode_eqb target) err.

(** ** Buffered channels *)

Record Chan (A : Type) : Type := mkChan { cap : nat; buf : list A }.
Arguments mkChan {A} _ _.
Arguments cap {A} _.
Arguments buf {A} _.

(** [select { case ch <- x: ... default: ... }]: the send happens when the
    buffer has room; [None] is the [default] branch. *)
Definition trySend {A : Type} (ch : Chan A) (x : A) : option (Chan A) :=
  if (List.length (buf ch) <? cap ch)%nat
  then Some (mkChan (cap ch) (buf ch ++ [x]))
  else None.

Definition free {A : Type} (ch : Chan A) : nat := (cap ch - List.length (buf ch))%nat.

(** A [*time.Timer]: [pending] is the delay it is armed with, [ticked] says
    that its tick sits unread in the capacity-1 channel [C]. *)
Record Timer : Type := mkTimer { pending : option Duration; ticked : bool }.

(** ** Package [rollup]: the chain configuration *)

Module rollup.

(** [common.Address] (20 bytes) and [eth.Bytes32], read as numbers like
    [Hash]; [*big.Int] is [option Z] with [None] for [nil]. *)
Definition Address : Type := Z.
Definition Bytes32 : Type := Z.

Record SystemConfig : Type := mkSystemConfig {
  BatcherAddr : Address;
  Overhead : Bytes32;
  Scalar : Bytes32;
  GasLimit : Z
}.

Record Genesis : Type := mkGenesis {
  L1 : BlockID;
  L2 : BlockID;
  L2Time : Z;
  SystemConfig_ : SystemConfig
}.

Record Config : Type := mkConfig {
  Genesis_ : Genesis;
  BlockTime : Z;
  MaxProposerDrift : Z;
  ProposerWindowSize : Z;
  ChannelTimeout : Z;
  L1ChainID : option Z;
  L2ChainID : option Z;
  BatchInboxAddress : Address;
  DepositContractAddress : Address;
  L1SystemConfigAddress : Address
}.

(** Modelled from the spec: [Config.Check] is not among the sources (its
    test, [TestConfig_Check], is).  The spec lists the error kinds that the
    validation must produce, one per missing or invalid field; the checks
    are made in the order of that list, and the first that fails decides. *)
Inductive CheckError : Type :=
| ErrBlockTimeZero
| ErrMissingChannelTimeout
| ErrInvalidProposerWindowSize
| ErrMissingGenesisL1Hash
| ErrMissingGenesisL2Hash
| ErrGenesisHashesSame
| ErrMissingGenesisL2Time
| ErrMissingBatcherAddr
| ErrMissingOverhead
| ErrMissingScalar
| ErrMissingGasLimit
| ErrMissingBatchInboxAddress
| ErrMissingDepositContractAddress
| ErrMissingL1ChainID
| ErrMissingL2ChainID
| ErrChainIDsSame
| ErrL1ChainIDNotPositive
| ErrL2ChainIDNotPositive.

(** Identity comparison of two error kinds, as [assert.Same] makes it. *)
Definition CheckError_eq_dec (a b : CheckError) : {a = b} + {a <> b}.
Proof. decide equality. Defined.

(** Modelled from the spec: see [CheckError]. *)
Definition Check (cfg : Config) : option CheckError :=
  if BlockTime cfg =? 0 then Some ErrBlockTimeZero
  else if ChannelTimeout cfg =? 0 then Some ErrMissingChannelTimeout
  else if ProposerWindowSize cfg <=? 1 then Some ErrInvalidProposerWindowSize
  else if Hash_ (L1 (Genesis_ cfg)) =? 0 then Some ErrMissingGenesisL1Hash
  else if Hash_ (L2 (Genesis_ cfg)) =? 0 then Some ErrMissingGenesisL2Hash
  else if Hash_ (L2 (Genesis_ cfg)) =? Hash_ (L1 (Genesis_ cfg))
       then Some ErrGenesisHashesSame
  else if L2Time (Genesis_ cfg) =? 0 then Some ErrMissingGenesisL2Time
  else if BatcherAddr (SystemConfig_ (Genesis_ cfg)) =? 0
       then Some ErrMissingBatcherAddr
  else if Overhead (SystemConfig_ (Genesis_ cfg)) =? 0 then Some ErrMissingOverhead
  else if Scalar (SystemConfig_ (Genesis_ cfg)) =? 0 then Some ErrMissingScalar
  else if GasLimit (SystemConfig_ (Genesis_ cfg)) =? 0 then Some ErrMissingGasLimit
  else if BatchInboxAddress cfg =? 0 then Some ErrMissingBatchInboxAddress
  else if DepositContractAddress cfg =? 0
       then Some ErrMissingDepositContractAddress
  else
    match L1ChainID cfg, L2ChainID cfg with
    | None, _ => Some ErrMissingL1ChainID
    | Some _, None => Some ErrMissingL2ChainID
    | Some c1, Some c2 =>
        if c1 =? c2 then Some ErrChainIDsSame
        else if c1 <=? 0 then Some ErrL1ChainIDNotPositive
        else if c2 <=? 0 then Some ErrL2ChainIDNotPositive
        else None
    end.

(** A configuration with every field present and valid, field by field. *)
Definition Valid (cfg : Config) : Prop :=
  BlockTime cfg <> 0 /\
  ChannelTimeout cfg <> 0 /\
  1 < ProposerWindowSize cfg /\
  Hash_ (L1 (Genesis_ cfg)) <> 0 /\
  Hash_ (L2 (Genesis_ cfg)) <> 0 /\
  Hash_ (L2 (Genesis_ cfg)) <> Hash_ (L1 (Genesis_ cfg)) /\
  L2Time (Genesis_ cfg) <> 0 /\
  BatcherAddr (SystemConfig_ (Genesis_ cfg)) <> 0 /\
  Overhead (SystemConfig_ (Genesis_ cfg)) <> 0 /\
  Scalar (SystemConfig_ (Genesis_ cfg)) <> 0 /\
  GasLimit (SystemConfig_ (Genesis_ cfg)) <> 0 /\
  BatchInboxAddress cfg <> 0 /\
  DepositContractAddress cfg <> 0 /\
  exists c1 c2,
    L1ChainID cfg = Some c1 /\ L2ChainID cfg = Some c2 /\
    c1 <> c2 /\ 0 < c1 /\ 0 < c2.

(** The modifiers of [TestConfig_Check]. *)
Definition with_BlockTime (v : Z) (c : Config) : Config :=
  mkConfig (Genesis_ c) v (MaxProposerDrift c) (ProposerWindowSize c)
    (ChannelTimeout c) (L1ChainID c) (L2ChainID c) (BatchInboxAddress c)
    (DepositContractAddress c) (L1SystemConfigAddress c).
Definition with_ProposerWindowSize (v : Z) (c : Config) : Config :=
  mkConfig (Genesis_ c) (BlockTime c) (MaxProposerDrift c) v
    (ChannelTimeout c) (L1ChainID c) (L2ChainID c) (BatchInboxAddress c)
    (DepositContractAddress c) (L1SystemConfigAddress c).
Definition with_ChannelTimeout (v : Z) (c : Config) : Config :=
  mkConfig (Genesis_ c) (BlockTime c) (MaxProposerDrift c) (ProposerWindowSize c)
    v (L1ChainID c) (L2ChainID c) (BatchInboxAddress c)
    (DepositContractAddress c) (L1SystemConfigAddress c).
Definition with_L1ChainID (v : option Z) (c : Config) : Config :=
  mkConfig (Genesis_ c) (BlockTime c) (MaxProposerDrift c) (ProposerWindowSize c)
    (ChannelTimeout c) v (L2ChainID c) (BatchInboxAddress c)
    (DepositContractAddress c) (L1SystemConfigAddress c).
Definition with_L2ChainID (v : option Z) (c : Config) : Config :=
  mkConfig (Genesis_ c) (BlockTime c) (MaxProposerDrift c) (ProposerWindowSize c)
    (ChannelTimeout c) (L1ChainID c) v (BatchInboxAddress c)
    (DepositContractAddress c) (L1SystemConfigAddress c).
Definition with_GenesisL2Hash (v : Hash) (c : Config) : Config :=
  mkConfig
    (mkGenesis (L1 (Genesis_ c)) (mkBlockID v (Number (L2 (Genesis_ c))))
       (L2Time (Genesis_ c)) (SystemConfig_ (Genesis_ c)))
    (BlockTime c) (MaxProposerDrift c) (ProposerWindowSize c)
    (ChannelTimeout c) (L1ChainID c) (L2ChainID c) (BatchInboxAddress c)
    (DepositContractAddress c) (L1SystemConfigAddress c).

Definition with_GenesisL1Hash (v : Hash) (c : Config) : Config :=
  mkConfig
    (mkGenesis (mkBlockID v (Number (L1 (Genesis_ c)))) (L2 (Genesis_ c))
       (L2Time (Genesis_ c)) (SystemConfig_ (Genesis_ c)))
    (BlockTime c) (MaxProposerDrift c) (ProposerWindowSize c)
    (ChannelTimeout c) (L1ChainID c) (L2ChainID c) (BatchInboxAddress c)
    (DepositContractAddress c) (L1SystemConfigAddress c).
Definition with_GenesisL2Time (v : Z) (c : Config) : Config :=
  mkConfig
    (mkGenesis (L1 (Genesis_ c)) (L2 (Genesis_ c)) v
       (SystemConfig_ (Genesis_ c)))
    (BlockTime c) (MaxProposerDrift c) (ProposerWindowSize c)
    (ChannelTimeout c) (L1ChainID c) (L2ChainID c) (BatchInboxAddress c)
    (DepositContractAddress c) (L1SystemConfigAddress c).
Definition with_SystemConfig (v : SystemConfig) (c : Config) : Config :=
  mkConfig
    (mkGenesis (L1 (Genesis_ c)) (L2 (Genesis_ c)) (L2Time (Genesis_ c)) v)
    (BlockTime c) (MaxProposerDrift c) (ProposerWindowSize c)
    (ChannelTimeout c) (L1ChainID c) (L2ChainID c) (BatchInboxAddress c)
    (DepositContractAddress c) (L1SystemConfigAddress c).
Definition with_BatcherAddr (v : Address) (c : Config) : Config :=
  with_SystemConfig
    (mkSystemConfig v (Overhead (SystemConfig_ (Genesis_ c)))
       (Scalar (SystemConfig_ (Genesis_ c)))
       (GasLimit (SystemConfig_ (Genesis_ c)))) c.
Definition with_Overhead (v : Bytes32) (c : Config) : Config :=
  with_SystemConfig
    (mkSystemConfig (BatcherAddr (SystemConfig_ (Genesis_ c))) v
       (Scalar (SystemConfig_ (Genesis_ c)))
       (GasLimit (SystemConfig_ (Genesis_ c)))) c.
Definition with_Scalar (v : Bytes32) (c : Config) : Config :=
  with_SystemConfig
    (mkSystemConfig (BatcherAddr (SystemConfig_ (Genesis_ c)))
       (Overhead (SystemConfig_ (Genesis_ c))) v
       (GasLimit (SystemConfig_ (Genesis_ c)))) c.
Definition with_GasLimit (v : Z) (c : Config) : Config :=
  with_SystemConfig
    (mkSystemConfig (BatcherAddr (SystemConfig_ (Genesis_ c)))
       (Overhead (SystemConfig_ (Genesis_ c)))
       (Scalar (SystemConfig_ (Genesis_ c))) v) c.
Definition with_BatchInboxAddress (v : Address) (c : Config) : Config :=
  mkConfig (Genesis_ c) (BlockTime c) (MaxProposerDrift c) (ProposerWindowSize c)
    (ChannelTimeout c) (L1ChainID c) (L2ChainID c) v
    (DepositContractAddress c) (L1SystemConfigAddress c).
Definition with_DepositContractAddress (v : Address) (c : Config) : Config :=
  mkConfig (Genesis_ c) (BlockTime c) (MaxProposerDrift c) (ProposerWindowSize c)
    (ChannelTimeout c) (L1ChainID c) (L2ChainID c) (BatchInboxAddress c)
    v (L1SystemConfigAddress c).

End rollup.

(** ** Package [driver] *)

(** [driver.Config]. *)
Record DriverConfig : Type := mkDriverConfig {
  SyncerConfDepth : Z;
  ProposerConfDepth : Z;
  ProposerEnabled : bool;
  ProposerStopped : bool
}.

(** Modelled from the spec: the implementation of [L1StateIface] is not among
    the sources; the spec describes it as a simple record of the latest L1
    head, safe and finalized references, written by the three handlers. *)
Record L1State : Type := mkL1State {
  L1Head : L1BlockRef;
  L1Safe : L1BlockRef;
  L1Finalized : L1BlockRef
}.

Definition HandleNewL1HeadBlock (r : L1BlockRef) (l : L1State) : L1State :=
  mkL1State r (L1Safe l) (L1Finalized l).
Definition HandleNewL1SafeBlock (r : L1BlockRef) (l : L1State) : L1State :=
  mkL1State (L1Head l) r (L1Finalized l).
Definition HandleNewL1FinalizedBlock (r : L1BlockRef) (l : L1State) : L1State :=
  mkL1State (L1Head l) (L1Safe l) r.

(** [sources.SyncClient], as far as the driver uses it: the bounded channel of
    block numbers to fetch. *)
Record SyncClient : Type := mkSyncClient { FetchUnsafeBlock : Chan Z }.

(** The collaborators of the driver.  The proposer builds on the engine that
    the derivation pipeline owns, so its methods see (and
    [RunNextProposerAction] may change) the pipeline; the network and the
    backoff strategy keep state of their own.  The accessors are pure. *)
Class Collaborators : Type := {
  Pipeline : Type;
  Proposer : Type;
  Network : Type;
  Backoff : Type;
  (* DerivationPipeline *)
  Step : Pipeline -> Pipeline * error;
  Reset : Pipeline -> Pipeline;
  AddUnsafePayload : ExecutionPayload -> Pipeline -> Pipeline;
  Finalize : L1BlockRef -> Pipeline -> Pipeline;
  Origin : Pipeline -> L1BlockRef;
  EngineReady : Pipeline -> bool;
  UnsafeL2Head : Pipeline -> L2BlockRef;
  SafeL2Head : Pipeline -> L2BlockRef;
  Finalized : Pipeline -> L2BlockRef;
  FinalizedL1 : Pipeline -> L1BlockRef;
  GetUnsafeQueueGap : Pipeline -> Z -> Z * Z;
  (* ProposerIface *)
  PlanNextProposerAction : Proposer -> Pipeline -> Proposer * Duration;
  BuildingOnto : Proposer -> Pipeline -> L2BlockRef;
  RunNextProposerAction :
    Proposer -> Pipeline -> Proposer * Pipeline * option ExecutionPayload * error;
  (* Network *)
  PublishL2Payload : Network -> ExecutionPayload -> Network * error;
  (* backoff.Strategy; the exponential strategy adds random jitter *)
  BackoffDuration : Backoff -> Z -> Backoff * Duration
}.

Inductive Level : Type := LvlDebug | LvlInfo | LvlWarn | LvlError.

(** What the loop does to the outside, in the order it does it: log lines,
    metrics, calls on the collaborators with what they returned, and the
    delayed-step timers it creates and consumes. *)
Inductive Call : Type :=
| Log (lvl : Level) (msg : string)
| Snapshot (event : string)
| SetDerivationIdle (idle : bool)
| RecordPipelineReset
| RecordPublishingError
| RecordReceivedUnsafePayload (p : ExecutionPayload)
| CallStep (err : error)
| CallReset
| CallAddUnsafePayload (p : ExecutionPayload)
| CallFinalize (r : L1BlockRef)
| CallGetUnsafeQueueGap (expected start end_ : Z)
| CallPlanNextProposerAction (delay : Duration)
| CallRunNextProposerAction (payload : option ExecutionPayload) (err : error)
| CallPublishL2Payload (p : ExecutionPayload) (err : error)
| TimeAfter (delay : Duration)
| RecvDelayedStep.

(** Where the goroutine of [eventLoop] is: suspended at the select, returned,
    or dead of a runtime panic. *)
Inductive Status : Type := Running | Returned | Panicked.

Section Driver.
Context {C : Collaborators}.

(** The fields of [Driver] that the loop reads or writes, followed by the
    locals of [eventLoop], its status and the record of its calls. *)
Record Driver : Type := mkDriver {
  l1State : L1State;
  derivation : Pipeline;
  config : rollup.Config;
  driverConfig : DriverConfig;
  L2SyncCl : option SyncClient;
  proposer : Proposer;
  network : option Network;
  stepReqCh : Chan unit;
  delayedStepReq : option Duration;
  bOffStrategy : Backoff;
  stepAttempts : Z;
  proposerTimer : Timer;
  proposerCh : bool;
  status : Status;
  calls : list Call
}.

Definition set_l1State (v : L1State) (s : Driver) : Driver :=
  mkDriver v (derivation s) (config s) (driverConfig s) (L2SyncCl s)
    (proposer s) (network s) (stepReqCh s) (delayedStepReq s)
    (bOffStrategy s) (stepAttempts s) (proposerTimer s) (proposerCh s)
    (status s) (calls s).
Definition set_derivation (v : Pipeline) (s : Driver) : Driver :=
  mkDriver (l1State s) v (config s) (driverConfig s) (L2SyncCl s)
    (proposer s) (network s) (stepReqCh s) (delayedStepReq s)
    (bOffStrategy s) (stepAttempts s) (proposerTimer s) (proposerCh s)
    (status s) (calls s).
Definition set_ProposerStopped (v : bool) (s : Driver) : Driver :=
  mkDriver (l1State s) (derivation s) (config s)
    (mkDriverConfig (SyncerConfDepth (driverConfig s))
       (ProposerConfDepth (driverConfig s))
       (ProposerEnabled (driverConfig s)) v)
    (L2SyncCl s)
    (proposer s) (network s) (stepReqCh s) (delayedStepReq s)
    (bOffStrategy s) (stepAttempts s) (proposerTimer s) (proposerCh s)
    (status s) (calls s).
Definition set_L2SyncCl (v : option SyncClient) (s : Driver) : Driver :=
  mkDriver (l1State s) (derivation s) (config s) (driverConfig s) v
    (proposer s) (network s) (stepReqCh s) (delayedStepReq s)
    (bOffStrategy s) (stepAttempts s) (proposerTimer s) (proposerCh s)
    (status s) (calls s).
Definition set_proposer (v : Proposer) (s : Driver) : Driver :=
  mkDriver (l1State s) (derivation s) (config s) (driverConfig s) (L2SyncCl s)
    v (network s) (stepReqCh s) (delayedStepReq s)
    (bOffStrategy s) (stepAttempts s) (proposerTimer s) (proposerCh s)
    (status s) (calls s).
Definition set_network (v : option Network) (s : Driver) : Driver :=
  mkDriver (l1State s) (derivation s) (config s) (driverConfig s) (L2SyncCl s)
    (proposer s) v (stepReqCh s) (delayedStepReq s)
    (bOffStrategy s) (stepAttempts s) (proposerTimer s) (proposerCh s)
    (status s) (calls s).
Definition set_stepReqCh (v : Chan unit) (s : Driver) : Driver :=
  mkDriver (l1State s) (derivation s) (config s) (driverConfig s) (L2SyncCl s)
    (proposer s) (network s) v (delayedStepReq s)
    (bOffStrategy s) (stepAttempts s) (proposerTimer s) (proposerCh s)
    (status s) (calls s).
Definition set_delayedStepReq (v : option Duration) (s : Driver) : Driver :=
  mkDriver (l1State s) (derivation s) (config s) (driverConfig s) (L2SyncCl s)
    (proposer s) (network s) (stepReqCh s) v
    (bOffStrategy s) (stepAttempts s) (proposerTimer s) (proposerCh s)
    (status s) (calls s).
Definition set_bOffStrategy (v : Backoff) (s : Driver) : Driver :=
  mkDriver (l1State s) (derivation s) (config s) (driverConfig s) (L2SyncCl s)
    (proposer s) (network s) (stepReqCh s) (delayedStepReq s)
    v (stepAttempts s) (proposerTimer s) (proposerCh s)
    (status s) (calls s).
Definition set_stepAttempts (v : Z) (s : Driver) : Driver :=
  mkDriver (l1State s) (derivation s) (config s) (driverConfig s) (L2SyncCl s)
    (proposer s) (network s) (stepReqCh s) (delayedStepReq s)
    (bOffStrategy s) v (proposerTimer s) (proposerCh s)
    (status s) (calls s).
Definition set_proposerTimer (v : Timer) (s : Driver) : Driver :=
  mkDriver (l1State s) (derivation s) (config s) (driverConfig s) (L2SyncCl s)
    (proposer s) (network s) (stepReqCh s) (delayedStepReq s)
    (bOffStrategy s) (stepAttempts s) v (proposerCh s)
    (status s) (calls s).
Definition set_proposerCh (v : bool) (s : Driver) : Driver :=
  mkDriver (l1State s) (derivation s) (config s) (driverConfig s) (L2SyncCl s)
    (proposer s) (network s) (stepReqCh s) (delayedStepReq s)
    (bOffStrategy s) (stepAttempts s) (proposerTimer s) v
    (status s) (calls s).
Definition set_status (v : Status) (s : Driver) : Driver :=
  mkDriver (l1State s) (derivation s) (config s) (driverConfig s) (L2SyncCl s)
    (proposer s) (network s) (stepReqCh s) (delayedStepReq s)
    (bOffStrategy s) (stepAttempts s) (proposerTimer s) (proposerCh s)
    v (calls s).
(** Append one entry to the record of calls. *)
Definition record (c : Call) (s : Driver) : Driver :=
  mkDriver (l1State s) (derivation s) (config s) (driverConfig s) (L2SyncCl s)
    (proposer s) (network s) (stepReqCh s) (delayedStepReq s)
    (bOffStrategy s) (stepAttempts s) (proposerTimer s) (proposerCh s)
    (status s) (calls s ++ [c]).

Definition log (lvl : Level) (msg : string) (s : Driver) : Driver :=
  record (Log lvl msg) s.

(** *** The closures of [eventLoop] *)

(** [step]: request a derivation step; the send is dropped when the
    capacity-1 channel is already full. *)
Definition step (s : Driver) : Driver :=
  match trySend (stepReqCh s) tt with
  | Some ch => set_stepReqCh ch s
  | None => s
  end.

(** [reqStep]: request a step, with a delay when this is a re-attempt, or
    not at all when a re-attempt is already scheduled. *)
Definition reqStep (s : Driver) : Driver :=
  if stepAttempts s >? 0 then
    match delayedStepReq s with
    | None =>
        let '(b, delay) := BackoffDuration (bOffStrategy s) (stepAttempts s) in
        let s := set_bOffStrategy b s in
        let s := log LvlDebug "scheduling re-attempt with delay" s in
        set_delayedStepReq (Some delay) (record (TimeAfter delay) s)
    | Some _ =>
        log LvlDebug
          "ignoring step request, already scheduled re-attempt after previous failure"
          s
    end
  else step s.

(** [planProposerAction]: ask the proposer for the delay, point
    [proposerCh] at the timer, drain a tick left in it, re-arm it. *)
Definition planProposerAction (s : Driver) : Driver :=
  let '(p, delay) := PlanNextProposerAction (proposer s) (derivation s) in
  let s := record (CallPlanNextProposerAction delay) (set_proposer p s) in
  let s := set_proposerCh true s in
  let s :=
    if ticked (proposerTimer s)
    then set_proposerTimer (mkTimer (pending (proposerTimer s)) false) s
    else s in
  set_proposerTimer (mkTimer (Some delay) (ticked (proposerTimer s))) s.

(** The head of the [for] loop, run before every select. *)
Definition preSelect (s : Driver) : Driver :=
  if ProposerEnabled (driverConfig s)
     && negb (ProposerStopped (driverConfig s))
     && negb (L1BlockRef_eqb (L1Head (l1State s)) zeroL1BlockRef)
     && EngineReady (derivation s)
  then
    if negb (BlockID_eqb (L2ID (BuildingOnto (proposer s) (derivation s)))
                         (L2ID (UnsafeL2Head (derivation s))))
    then planProposerAction s
    else s
  else set_proposerCh false s.

(** *** [checkForGapInUnsafeQueue] *)

(** The [for blockNumber := start; blockNumber <= end; blockNumber++] loop
    with its non-blocking send.  [room] is the number of free slots of the
    channel: every turn either leaves the loop or fills one slot, and nobody
    reads the channel while the loop runs. *)
Fixpoint fetchLoop (room : nat) (blockNumber end_ : Z) (ch : Chan Z) : Chan Z :=
  if blockNumber <=? end_ then
    match room with
    | O => ch
    | S room' =>
        fetchLoop room' (U64.add blockNumber 1) end_
          (mkChan (cap ch) (buf ch ++ [blockNumber]))
    end
  else ch.

(** [now] is [time.Now().Unix()], an [int64]. *)
Definition checkForGapInUnsafeQueue (now : Z) (cl : SyncClient) (s : Driver)
  : Driver :=
  let wallClock := U64.wrap now in
  let genesisTimestamp := rollup.L2Time (rollup.Genesis_ (config s)) in
  let wallClockGenesisDiff := U64.sub wallClock genesisTimestamp in
  match U64.div wallClockGenesisDiff (rollup.BlockTime (config s)) with
  | None => set_status Panicked s
  | Some expectedL2Block =>
      let '(start, end_) := GetUnsafeQueueGap (derivation s) expectedL2Block in
      let s := record (CallGetUnsafeQueueGap expectedL2Block start end_) s in
      let size := U64.sub end_ start in
      if size >? 0 then
        let s :=
          log LvlWarn
            "Gap in payload queue tip and expected unsafe chain detected" s in
        let s :=
          log LvlInfo "Attempting to fetch missing payloads from backup RPC" s in
        let ch := FetchUnsafeBlock cl in
        set_L2SyncCl (Some (mkSyncClient (fetchLoop (free ch) start end_ ch))) s
      else s
  end.

(** *** The cases of the select *)

(** What a case leaves in the reply channel it was handed. *)
Inductive Reply : Type :=
| NoReply
| ErrSent (e : GoErr)                     (* resp.err <- e *)
| ErrClosed                               (* close(resp.err) *)
| HashAndError (hash : Hash) (err : error) (* respCh <- hashAndError{...} *)
| AckClosed                               (* close(respCh) of a force reset *)
| StateReleased.                          (* respCh <- struct{}{} *)

Definition onProposerTick (s : Driver) : Driver :=
  let s := set_proposerTimer (mkTimer (pending (proposerTimer s)) false) s in
  let '(p, d, payload, err) :=
    RunNextProposerAction (proposer s) (derivation s) in
  let s := set_derivation d (set_proposer p s) in
  let s := record (CallRunNextProposerAction payload err) s in
  match err with
  | Some _ => set_status Returned (log LvlError "Sequencer critical error" s)
  | None =>
      let s :=
        match network s, payload with
        | Some n, Some pl =>
            let '(n', perr) := PublishL2Payload n pl in
            let s := record (CallPublishL2Payload pl perr) (set_network (Some n') s) in
            match perr with
            | Some _ =>
                record RecordPublishingError
                  (log LvlWarn "failed to publish newly created block" s)
            | None => s
            end
        | _, _ => s
        end in
      planProposerAction s
  end.

Definition onAltSyncTick (now : Z) (s : Driver) : Driver :=
  match L2SyncCl s with
  | Some cl => checkForGapInUnsafeQueue now cl s
  | None => s
  end.

Definition snapshot (event : string) (s : Driver) : Driver :=
  record (Snapshot event) s.

Definition onUnsafePayload (payload : ExecutionPayload) (s : Driver) : Driver :=
  let s := snapshot "New unsafe payload" s in
  let s := log LvlInfo "Optimistically queueing unsafe L2 execution payload" s in
  let s := record (CallAddUnsafePayload payload)
             (set_derivation (AddUnsafePayload payload (derivation s)) s) in
  let s := record (RecordReceivedUnsafePayload payload) s in
  reqStep s.

Definition onL1Head (newL1Head : L1BlockRef) (s : Driver) : Driver :=
  reqStep (set_l1State (HandleNewL1HeadBlock newL1Head (l1State s)) s).

Definition onL1Safe (newL1Safe : L1BlockRef) (s : Driver) : Driver :=
  set_l1State (HandleNewL1SafeBlock newL1Safe (l1State s)) s.

Definition onL1Finalized (newL1Finalized : L1BlockRef) (s : Driver) : Driver :=
  let s := set_l1State (HandleNewL1FinalizedBlock newL1Finalized (l1State s)) s in
  let s := record (CallFinalize newL1Finalized)
             (set_derivation (Finalize newL1Finalized (derivation s)) s) in
  reqStep s.

Definition onDelayedStep (s : Driver) : Driver :=
  let s := record RecvDelayedStep s in
  step (set_delayedStepReq None s).

(** How the step case reads the error of [Step], in the order of its
    [if ... else if] chain. *)
Inductive StepClass : Type :=
| StepEOF | StepReset | StepTemporary | StepCritical | StepNotEnoughData
| StepOther | StepOk.

Definition classify (err : error) : StepClass :=
  match err with
  | None => StepOk
  | Some e =>
      if isEOF e then StepEOF
      else if errors_Is e ErrReset then StepReset
      else if errors_Is e ErrTemporary then StepTemporary
      else if errors_Is e ErrCritical then StepCritical
      else if errors_Is e NotEnoughData then StepNotEnoughData
      else StepOther
  end.

Definition onStepReq (s : Driver) : Driver :=
  let s := set_stepReqCh (mkChan (cap (stepReqCh s)) (tl (buf (stepReqCh s)))) s in
  let s := record (SetDerivationIdle false) s in
  let s := log LvlDebug "Derivation process step" s in
  let '(d, err) := Step (derivation s) in
  let s := record (CallStep err) (set_derivation d s) in
  let s := set_stepAttempts (Int.add (stepAttempts s) 1) s in
  match classify err with
  | StepEOF =>
      let s := log LvlDebug "Derivation process went idle" s in
      let s := set_stepAttempts 0 s in
      record (SetDerivationIdle true) s
  | StepReset =>
      let s := log LvlWarn "Derivation pipeline is reset" s in
      let s := record CallReset (set_derivation (Reset (derivation s)) s) in
      record RecordPipelineReset s
  | StepTemporary =>
      reqStep (log LvlWarn "Derivation process temporary error" s)
  | StepCritical =>
      set_status Returned (log LvlError "Derivation process critical error" s)
  | StepNotEnoughData =>
      reqStep (set_stepAttempts 0 s)
  | StepOther =>
      reqStep (log LvlError "Derivation process error" s)
  | StepOk =>
      reqStep (set_stepAttempts 0 s)
  end.

Definition onForceReset (s : Driver) : Driver * Reply :=
  let s := log LvlWarn "Derivation pipeline is manually reset" s in
  let s := record CallReset (set_derivation (Reset (derivation s)) s) in
  let s := record RecordPipelineReset s in
  (s, AckClosed).

Definition onStartProposer (hash : Hash) (s : Driver) : Driver * Reply :=
  let unsafeHead := L2Hash (UnsafeL2Head (derivation s)) in
  if negb (ProposerStopped (driverConfig s)) then
    (s, ErrSent [New "proposer already running"])
  else if negb (unsafeHead =? hash) then
    (s, ErrSent [BlockHashMismatch unsafeHead hash])
  else
    let s := log LvlInfo "Proposer has been started" s in
    let s := set_ProposerStopped false s in
    (planProposerAction s, ErrClosed).

Definition onStopProposer (s : Driver) : Driver * Reply :=
  if ProposerStopped (driverConfig s) then
    (s, HashAndError 0 (Some [New "proposer not running"]))
  else
    let s := log LvlWarn "Proposer has been stopped" s in
    let s := set_ProposerStopped true s in
    (s, HashAndError (L2Hash (UnsafeL2Head (derivation s))) None).

(** *** The select *)

(** What can wake the loop, one constructor per case of the select, with
    the value received.  [TimerExpired] is the runtime putting the tick of
    the expired proposer timer into [proposerTimer.C]; no code of the loop
    runs for it. *)
Inductive Event : Type :=
| ProposerTick
| AltSyncTick (now : Z)
| UnsafePayload (payload : ExecutionPayload)
| L1HeadSig (newL1Head : L1BlockRef)
| L1SafeSig (newL1Safe : L1BlockRef)
| L1FinalizedSig (newL1Finalized : L1BlockRef)
| DelayedStep
| StepReq
| StateReq
| ForceReset
| StartProposerReq (hash : Hash)
| StopProposerReq
| Done
| TimerExpired.

(** Whether the channel of a case can be received from, as far as the
    loop's own state decides it: a nil channel never fires, an empty
    buffered channel neither. *)
Definition ready (ev : Event) (s : Driver) : bool :=
  match ev with
  | ProposerTick => proposerCh s && ticked (proposerTimer s)
  | DelayedStep =>
      match delayedStepReq s with
      | Some _ => true
      | None => false
      end
  | StepReq =>
      match buf (stepReqCh s) with
      | [] => false
      | _ :: _ => true
      end
  | TimerExpired =>
      match pending (proposerTimer s) with
      | Some _ => true
      | None => false
      end
  | _ => true
  end.

(** The body of the case that received [ev]. *)
Definition handle (ev : Event) (s : Driver) : Driver * Reply :=
  match ev with
  | ProposerTick => (onProposerTick s, NoReply)
  | AltSyncTick now => (onAltSyncTick now s, NoReply)
  | UnsafePayload payload => (onUnsafePayload payload s, NoReply)
  | L1HeadSig r => (onL1Head r s, NoReply)
  | L1SafeSig r => (onL1Safe r s, NoReply)
  | L1FinalizedSig r => (onL1Finalized r s, NoReply)
  | DelayedStep => (onDelayedStep s, NoReply)
  | StepReq => (onStepReq s, NoReply)
  | StateReq => (s, StateReleased)
  | ForceReset => onForceReset s
  | StartProposerReq hash => onStartProposer hash s
  | StopProposerReq => onStopProposer s
  | Done => (set_status Returned s, NoReply)
  | TimerExpired => (s, NoReply)
  end.

(** The runtime delivers the tick of the proposer timer: the send into the
    capacity-1 channel [C] never blocks. *)
Definition expire (s : Driver) : Driver :=
  set_proposerTimer (mkTimer None true) s.

(** One turn of the [for] loop, from the select it is suspended at to the
    next one: the case body, then (unless the loop returned) the head of
    the next turn.  An event whose channel is not ready is not received. *)
Definition deliver (ev : Event) (s : Driver) : Driver * Reply :=
  match status s with
  | Running =>
      if ready ev s then
        match ev with
        | TimerExpired => (expire s, NoReply)
        | _ =>
            let '(s', r) := handle ev s in
            match status s' with
            | Running => (preSelect s', r)
            | _ => (s', r)
            end
        end
      else (s, NoReply)
  | _ => (s, NoReply)
  end.

Fixpoint run (evs : list Event) (s : Driver) : Driver :=
  match evs with
  | [] => s
  | ev :: evs' => run evs' (fst (deliver ev s))
  end.

(** [eventLoop] from its first line to its first select: the locals are
    initialised, [reqStep] is called once, the proposer timer is created
    with [time.NewTimer(0)].  [Start] resets the pipeline before it
    spawns the loop. *)
Definition eventLoop_enter
  (l1 : L1State) (d : Pipeline) (cfg : rollup.Config) (dc : DriverConfig)
  (cl : option SyncClient) (p : Proposer) (n : option Network) (b : Backoff)
  : Driver :=
  let s :=
    mkDriver l1 d cfg dc cl p n (mkChan 1%nat []) None b 0
      (mkTimer (Some 0) false) false Running
      [Log LvlInfo "State loop started"] in
  preSelect (reqStep s).

Definition Start
  (l1 : L1State) (d : Pipeline) (cfg : rollup.Config) (dc : DriverConfig)
  (cl : option SyncClient) (p : Proposer) (n : option Network) (b : Backoff)
  : Driver :=
  eventLoop_enter l1 (Reset d) cfg dc cl p n b.

(** *** The public control API

    The methods are modelled for a caller whose context is never
    cancelled and a loop that is at its select: the request is received,
    and the caller reads the reply. *)

Definition StartProposer (blockHash : Hash) (s : Driver) : Driver * error :=
  if negb (ProposerEnabled (driverConfig s)) then
    (s, Some [New "proposer is not enabled"])
  else
    let '(s', r) := deliver (StartProposerReq blockHash) s in
    match r with
    | ErrSent e => (s', Some e)
    | _ => (s', None)
    end.

Definition StopProposer (s : Driver) : Driver * (Hash * error) :=
  if negb (ProposerEnabled (driverConfig s)) then
    (s, (0, Some [New "proposer is not enabled"]))
  else
    let '(s', r) := deliver StopProposerReq s in
    match r with
    | HashAndError h e => (s', (h, e))
    | _ => (s', (0, None))
    end.

Definition ResetDerivationPipeline (s : Driver) : Driver * error :=
  (fst (deliver ForceReset s), None).

(** [eth.SyncStatus], with the fields that [syncStatus] fills. *)
Record eth_SyncStatus : Type := mkSyncStatus {
  CurrentL1 : L1BlockRef;
  CurrentL1Finalized : L1BlockRef;
  HeadL1 : L1BlockRef;
  SafeL1 : L1BlockRef;
  FinalizedL1_ : L1BlockRef;
  UnsafeL2 : L2BlockRef;
  SafeL2 : L2BlockRef;
  FinalizedL2 : L2BlockRef
}.

Definition syncStatus (s : Driver) : eth_SyncStatus :=
  mkSyncStatus
    (Origin (derivation s))
    (FinalizedL1 (derivation s))
    (L1Head (l1State s))
    (L1Safe (l1State s))
    (L1Finalized (l1State s))
    (UnsafeL2Head (derivation s))
    (SafeL2Head (derivation s))
    (Finalized (derivation s)).

(** [SyncStatus]: the caller hands its wait channel to the loop, takes the
    snapshot while the loop is held at the send into that channel, and
    releases the loop. *)
Definition SyncStatus (s : Driver) : Driver * (eth_SyncStatus * error) :=
  (fst (deliver StateReq s), (syncStatus s, None)).

End Driver.

(** ** A scripted implementation of the collaborators

    The pipeline, proposer and network of the driver's tests: each answers
    from a script.  It gives the theorems below concrete inputs. *)

Module Scripted.

Record Pipe : Type := mkPipe {
  script : list error;          (* what the next calls of Step return *)
  unsafe : L2BlockRef;
  ready_ : bool;
  gap : Z * Z;                  (* what GetUnsafeQueueGap returns *)
  resets : nat
}.

Record Builder : Type := mkBuilder {
  plan : Duration;
  onto : L2BlockRef;
  builds : list (option ExecutionPayload * error)
}.

Definition block (h n : Z) : L2BlockRef := mkL2BlockRef h n 0 0 (mkBlockID 0 0) 0.

Definition pipeStep (p : Pipe) : Pipe * error :=
  match script p with
  | [] => (p, Some [IoEOF])
  | e :: rest => (mkPipe rest (unsafe p) (ready_ p) (gap p) (resets p), e)
  end.

Definition pipeReset (p : Pipe) : Pipe :=
  mkPipe (script p) (unsafe p) (ready_ p) (gap p) (S (resets p)).

Definition runNext (q : Builder) (p : Pipe)
  : Builder * Pipe * option ExecutionPayload * error :=
  match builds q with
  | [] => (q, p, None, None)
  | (Some pl, None) :: rest =>
      (mkBuilder (plan q) (block (BlockHash pl) (BlockNumber pl)) rest,
       mkPipe (script p) (block (BlockHash pl) (BlockNumber pl)) (ready_ p)
         (gap p) (resets p),
       Some pl, None)
  | (pl, e) :: rest => (mkBuilder (plan q) (onto q) rest, p, pl, e)
  end.

(** The network answers each publish from a script of errors. *)
Definition publish (n : list error) (pl : ExecutionPayload) : list error * error :=
  match n with
  | [] => ([], None)
  | e :: rest => (rest, e)
  end.

(** 50ms doubled per attempt, capped at 10s, no jitter. *)
Definition exponential (attempts : Z) : Duration :=
  Z.min (50000000 * 2 ^ (Z.max 0 (attempts - 1))) 10000000000.

#[export] Instance collaborators : Collaborators := {|
  Pipeline := Pipe;
  Proposer := Builder;
  Network := list error;
  Backoff := unit;
  Step := pipeStep;
  Reset := pipeReset;
  AddUnsafePayload := fun _ p => p;
  Finalize := fun _ p => p;
  Origin := fun _ => zeroL1BlockRef;
  EngineReady := ready_;
  UnsafeL2Head := unsafe;
  SafeL2Head := unsafe;
  Finalized := unsafe;
  FinalizedL1 := fun _ => zeroL1BlockRef;
  GetUnsafeQueueGap := fun p _ => gap p;
  PlanNextProposerAction := fun q _ => (q, plan q);
  BuildingOnto := fun q _ => onto q;
  RunNextProposerAction := runNext;
  PublishL2Payload := publish;
  BackoffDuration := fun b n => (b, exponential n)
|}.

(** The configuration of [randConfig] in the tests, with fixed hashes. *)
Definition cfg : rollup.Config :=
  rollup.mkConfig
    (rollup.mkGenesis (mkBlockID 11 424242) (mkBlockID 12 1337) 1700000000
       (rollup.mkSystemConfig 21 22 23 1234567))
    2 100 2 123 (Some 900) (Some 901) 31 32 33.

Definition l1 : L1State := mkL1State zeroL1BlockRef zeroL1BlockRef zeroL1BlockRef.

(** A driver suspended at its first select: the pipeline will answer [errs]
    to the next steps and reports [gap_] as the gap of its unsafe queue, its
    unsafe head has hash [h] and number 3; the backup-sync channel has
    [room] slots. *)
Definition driver (errs : list error) (h : Hash) (gap_ : Z * Z)
  (enabled stopped : bool) (room : nat) : Driver :=
  eventLoop_enter l1 (mkPipe errs (block h 3) true gap_ 0) cfg
    (mkDriverConfig 0 0 enabled stopped)
    (Some (mkSyncClient (mkChan room [])))
    (mkBuilder 2000000000 (block h 3) []) (Some []) tt.

(** A driver at its select with the tick of the proposer timer waiting:
    the proposer will answer [builds_] to the next builds, the network (if
    there is one) [net] to the next publishes. *)
Definition atTick (builds_ : list (option ExecutionPayload * error))
  (net : option (list error)) : Driver :=
  mkDriver (mkL1State (mkL1BlockRef 5 1 4 1700000000) zeroL1BlockRef zeroL1BlockRef)
    (mkPipe [] (block 7 3) true (0, 0) 0) cfg
    (mkDriverConfig 0 0 true false) None
    (mkBuilder 2000000000 (block 7 3) builds_) net
    (mkChan 1%nat []) None tt 0 (mkTimer None true) true Running [].

(** The driver of [driver] with a rollup configuration whose block time
    is 0, as [Check] would have refused it. *)
Definition zeroBlockTime (room : nat) : Driver :=
  eventLoop_enter l1 (mkPipe [] (block 7 3) true (0, 0) 0)
    (rollup.with_BlockTime 0 cfg)
    (mkDriverConfig 0 0 false false)
    (Some (mkSyncClient (mkChan room [])))
    (mkBuilder 2000000000 (block 7 3) []) (Some []) tt.

End Scripted.

(** * Properties *)

Section Properties.
Context {C : Collaborators}.

(** ** What the closures leave alone *)

Ltac unfold_setters :=
  unfold log, snapshot, record, set_l1State, set_derivation,
    set_ProposerStopped, set_L2SyncCl, set_proposer, set_network,
    set_stepReqCh, set_delayedStepReq, set_bOffStrategy, set_stepAttempts,
    set_proposerTimer, set_proposerCh, set_status in *.

(** The fields that only the step machinery and the requests write. *)
Record SameCore (s s' : Driver) : Prop := mkSameCore {
  same_l1State : l1State s' = l1State s;
  same_derivation : derivation s' = derivation s;
  same_config : config s' = config s;
  same_driverConfig : driverConfig s' = driverConfig s;
  same_L2SyncCl : L2SyncCl s' = L2SyncCl s;
  same_network : network s' = network s;
  same_stepReqCh : stepReqCh s' = stepReqCh s;
  same_delayedStepReq : delayedStepReq s' = delayedStepReq s;
  same_bOffStrategy : bOffStrategy s' = bOffStrategy s;
  same_stepAttempts : stepAttempts s' = stepAttempts s;
  same_status : status s' = status s
}.

(** The delayed-step timers that [time.After] created, and the ticks of
    them that the loop received, as the record of calls shows them. *)
Fixpoint timersCreated (l : list Call) : nat :=
  match l with
  | [] => O
  | TimeAfter _ :: l' => S (timersCreated l')
  | _ :: l' => timersCreated l'
  end.

Fixpoint timersFired (l : list Call) : nat :=
  match l with
  | [] => O
  | RecvDelayedStep :: l' => S (timersFired l')
  | _ :: l' => timersFired l'
  end.

(** The pending flag: [delayedStepReq != nil]. *)
Definition pendingTimers (s : Driver) : nat :=
  match delayedStepReq s with
  | Some _ => 1%nat
  | None => 0%nat
  end.

(** Every timer created and not yet received is the one that
    [delayedStepReq] holds. *)
Definition TimerInv (s : Driver) : Prop :=
  timersCreated (calls s) = (timersFired (calls s) + pendingTimers s)%nat.

(** The step-request channel of [eventLoop]: [make(chan struct{}, 1)]. *)
Definition StepChanInv (s : Driver) : Prop :=
  cap (stepReqCh s) = 1%nat /\ (List.length (buf (stepReqCh s)) <= 1)%nat.

(** The calls made between two states of one run. *)
Definition newCalls (s s' : Driver) : list Call :=
  skipn (List.length (calls s)) (calls s').

(** A call of [Step] that returned success, [io.EOF] or [NotEnoughData];
    any other call is not a step outcome and passes. *)
Definition benignCall (c : Call) : Prop :=
  match c with
  | CallStep err =>
      match classify err with
      | StepOk | StepEOF | StepNotEnoughData => True
      | _ => False
      end
  | _ => True
  end.

(** The numbers [lo, lo+1, ...], [n] of them. *)
Fixpoint countFrom (lo : Z) (n : nat) : list Z :=
  match n with
  | O => []
  | S n' => lo :: countFrom (lo + 1) n'
  end.

(** The numbers [lo, lo+1, ...] as a [uint64] counter yields them: after
    the largest comes 0. *)
Fixpoint countFromWrap (lo : Z) (n : nat) : list Z :=
  match n with
  | O => []
  | S n' => lo :: countFromWrap (U64.add lo 1) n'
  end.

(** The condition under which the head of the loop lets the proposer act. *)
Definition eligible (s : Driver) : bool :=
  ProposerEnabled (driverConfig s)
  && negb (ProposerStopped (driverConfig s))
  && negb (L1BlockRef_eqb (L1Head (l1State s)) zeroL1BlockRef)
  && EngineReady (derivation s).

(** The calls of [RunNextProposerAction] in a record of calls. *)
Fixpoint proposerRuns (l : list Call) : nat :=
  match l with
  | [] => O
  | CallRunNextProposerAction _ _ :: l' => S (proposerRuns l')
  | _ :: l' => proposerRuns l'
  end.

(** A loop at its select whose proposer channel is nil. *)
Definition Quiet (s : Driver) : Prop :=
  status s = Running -> proposerCh s = false.

Definition isStartProposerReq (ev : Event) : bool :=
  match ev with
  | StartProposerReq _ => true
  | _ => false
  end.

Definition isStopProposerReq (ev : Event) : bool :=
  match ev with
  | StopProposerReq => true
  | _ => false
  end.

Lemma planProposerAction_core (s : Driver) : SameCore s (planProposerAction s).
Proof.
  unfold planProposerAction.
  destruct (PlanNextProposerAction (proposer s) (derivation s)) as [p delay].
  unfold_setters; cbn.
  destruct (ticked (proposerTimer s)); constructor; reflexivity.
Qed.

Lemma preSelect_core (s : Driver) : SameCore s (preSelect s).
Proof.
  unfold preSelect.
  destruct (_ && _ && _ && _).
  - destruct (negb _).
    + apply planProposerAction_core.
    + constructor; reflexivity.
  - unfold_setters; constructor; reflexivity.
Qed.

Lemma planProposerAction_calls (s : Driver) :
  calls (planProposerAction s) =
  calls s ++ [CallPlanNextProposerAction
                (snd (PlanNextProposerAction (proposer s) (derivation s)))].
Proof.
  unfold planProposerAction.
  destruct (PlanNextProposerAction (proposer s) (derivation s)) as [p delay].
  unfold_setters; cbn.
  destruct (ticked (proposerTimer s)); reflexivity.
Qed.

(** What re-planning does: the proposer is asked for the delay, the
    proposer channel is the channel of the timer, the timer holds no tick
    and is armed with the delay asked for. *)
Lemma planProposerAction_effect (s : Driver) :
  proposer (planProposerAction s)
  = fst (PlanNextProposerAction (proposer s) (derivation s))
  /\ proposerCh (planProposerAction s) = true
  /\ proposerTimer (planProposerAction s)
     = mkTimer (Some (snd (PlanNextProposerAction (proposer s) (derivation s))))
         false
  /\ calls (planProposerAction s)
     = calls s ++ [CallPlanNextProposerAction
                     (snd (PlanNextProposerAction (proposer s) (derivation s)))].
Proof.
  unfold planProposerAction.
  destruct (PlanNextProposerAction (proposer s) (derivation s)) as [p delay].
  cbn. destruct (ticked (proposerTimer s)) eqn:E; cbn; rewrite ?E; auto.
Qed.

(** The head of the loop adds at most a re-planning to the record. *)
Lemma preSelect_calls (s : Driver) :
  calls (preSelect s) = calls s \/
  exists delay, calls (preSelect s) = calls s ++ [CallPlanNextProposerAction delay].
Proof.
  unfold preSelect.
  destruct (_ && _ && _ && _).
  - destruct (negb _).
    + right. eexists. apply planProposerAction_calls.
    + left; reflexivity.
  - left; reflexivity.
Qed.

(** ** Start and stop of the proposer *)

(** C1: with the proposer enabled, a start request that the loop handles
    succeeds exactly when the proposer was stopped and the hash is the one of
    the current unsafe head; it then clears [ProposerStopped], closes the
    error channel and re-plans: [PlanNextProposerAction] is asked once, the
    proposer channel is the channel of the timer, and the timer, drained of
    a stale tick, is armed with the delay the proposer answered.  A running
    proposer gets "proposer already
    running", another hash the mismatch error, and in both cases the case
    body leaves the whole driver state as it was; the head of the loop, run
    before the next select as after every case, writes no field of
    [SameCore].  With the proposer disabled, the caller gets the disabled
    error and the loop sees nothing. *)
Theorem C1_StartProposer (s : Driver) (h : Hash) :
  status s = Running ->
  let head := L2Hash (UnsafeL2Head (derivation s)) in
  (ProposerEnabled (driverConfig s) = false ->
     StartProposer h s = (s, Some [New "proposer is not enabled"]))
  /\
  (ProposerEnabled (driverConfig s) = true ->
     (snd (StartProposer h s) = None <->
        ProposerStopped (driverConfig s) = true /\ h = head)
     /\
     (ProposerStopped (driverConfig s) = false ->
        snd (StartProposer h s) = Some [New "proposer already running"]
        /\ fst (handle (StartProposerReq h) s) = s
        /\ SameCore s (fst (StartProposer h s)))
     /\
     (ProposerStopped (driverConfig s) = true -> h <> head ->
        snd (StartProposer h s) = Some [BlockHashMismatch head h]
        /\ fst (handle (StartProposerReq h) s) = s
        /\ SameCore s (fst (StartProposer h s)))
     /\
     (ProposerStopped (driverConfig s) = true -> h = head ->
        handle (StartProposerReq h) s =
          (planProposerAction
             (set_ProposerStopped false
                (log LvlInfo "Proposer has been started" s)),
           ErrClosed)
        /\ ProposerStopped (driverConfig (fst (StartProposer h s))) = false
        /\ (let planned := PlanNextProposerAction (proposer s) (derivation s) in
            let started := fst (handle (StartProposerReq h) s) in
            calls started =
              calls s ++ [Log LvlInfo "Proposer has been started";
                          CallPlanNextProposerAction (snd planned)]
            /\ proposer started = fst planned
            /\ proposerCh started = true
            /\ proposerTimer started = mkTimer (Some (snd planned)) false
            /\ ProposerStopped (driverConfig started) = false
            /\ derivation started = derivation s
            /\ l1State started = l1State s
            /\ stepAttempts started = stepAttempts s
            /\ stepReqCh started = stepReqCh s
            /\ delayedStepReq started = delayedStepReq s
            /\ status started = Running))).
Proof.
  intros Hrun head.
  split.
  { intros Hen. unfold StartProposer. rewrite Hen. reflexivity. }
  intros Hen.
  assert (Hstart : forall r s1,
             handle (StartProposerReq h) s = (s1, r) ->
             status s1 = Running ->
             StartProposer h s =
               (preSelect s1,
                match r with ErrSent e => Some e | _ => None end)).
  { intros r s1 Hh Hs1. unfold StartProposer, deliver.
    rewrite Hen, Hrun. cbn [negb ready]. rewrite Hh, Hs1.
    destruct r; reflexivity. }
  cbn [handle] in *. unfold onStartProposer in *. fold head in Hstart |- *.
  destruct (ProposerStopped (driverConfig s)) eqn:Hst; cbn [negb] in *.
  - destruct (Z.eqb_spec head h) as [Heq | Hne]; cbn [negb] in *.
    + pose proof (planProposerAction_core
                    (set_ProposerStopped false
                       (log LvlInfo "Proposer has been started" s))) as Hc.
      rewrite (Hstart _ _ eq_refl)
        by (rewrite (same_status _ _ Hc); exact Hrun).
      cbn [fst snd].
      split; [ | split; [ | split ] ].
      * split; [ intros _; split; congruence | reflexivity ].
      * discriminate.
      * intros _ Hh. congruence.
      * intros _ _. split; [ reflexivity | ].
        split.
        { rewrite (same_driverConfig _ _ (preSelect_core _)).
          rewrite (same_driverConfig _ _ Hc). reflexivity. }
        cbv zeta. cbn [fst].
        destruct (planProposerAction_effect
                    (set_ProposerStopped false
                       (log LvlInfo "Proposer has been started" s)))
          as (Hp & Hch & Ht & Hcalls).
        split.
        { rewrite Hcalls. cbn. rewrite <- app_assoc. reflexivity. }
        split; [ exact Hp | ]. split; [ exact Hch | ]. split; [ exact Ht | ].
        rewrite (same_driverConfig _ _ Hc), (same_derivation _ _ Hc),
          (same_l1State _ _ Hc), (same_stepAttempts _ _ Hc),
          (same_stepReqCh _ _ Hc), (same_delayedStepReq _ _ Hc),
          (same_status _ _ Hc).
        repeat (split; [ reflexivity | ]). exact Hrun.
    + rewrite (Hstart _ _ eq_refl Hrun). cbn [fst snd].
      split; [ | split; [ | split ] ].
      * split; [ discriminate | intros [_ Hh]; congruence ].
      * discriminate.
      * intros _ _. split; [ reflexivity | split; [ reflexivity | ] ].
        apply preSelect_core.
      * intros _ Hh. congruence.
  - rewrite (Hstart _ _ eq_refl Hrun). cbn [fst snd].
    split; [ | split; [ | split ] ].
    + split; [ discriminate | intros [Hf _]; discriminate ].
    + intros _. split; [ reflexivity | split; [ reflexivity | ] ].
      apply preSelect_core.
    + discriminate.
    + discriminate.
Qed.

(** C6: with the proposer enabled, a stop request that the loop handles
    fails with "proposer not running" when the proposer is already stopped,
    and the case body leaves the driver state as it was; otherwise it sets
    [ProposerStopped] and answers the hash of the current unsafe head.  With
    the proposer disabled, the caller gets the disabled error and the loop
    sees nothing. *)
Theorem C6_StopProposer (s : Driver) :
  status s = Running ->
  (ProposerEnabled (driverConfig s) = false ->
     StopProposer s = (s, (0, Some [New "proposer is not enabled"])))
  /\
  (ProposerEnabled (driverConfig s) = true ->
     (ProposerStopped (driverConfig s) = true ->
        snd (StopProposer s) = (0, Some [New "proposer not running"])
        /\ fst (handle StopProposerReq s) = s)
     /\
     (ProposerStopped (driverConfig s) = false ->
        snd (StopProposer s) = (L2Hash (UnsafeL2Head (derivation s)), None)
        /\ fst (handle StopProposerReq s) =
             set_ProposerStopped true (log LvlWarn "Proposer has been stopped" s)
        /\ ProposerStopped (driverConfig (fst (StopProposer s))) = true)).
Proof.
  intros Hrun. split.
  { intros Hen. unfold StopProposer. rewrite Hen. reflexivity. }
  intros Hen.
  unfold StopProposer, deliver. rewrite Hen, Hrun. cbn [negb ready handle].
  unfold onStopProposer.
  destruct (ProposerStopped (driverConfig s)) eqn:Hst.
  - rewrite Hrun. cbn [fst snd]. split; [ | discriminate ].
    intros _. split; reflexivity.
  - replace (status (set_ProposerStopped true
                       (log LvlWarn "Proposer has been stopped" s)))
      with Running by (symmetry; exact Hrun).
    cbn [fst snd]. split; [ discriminate | ].
    intros _. split; [ reflexivity | split; [ reflexivity | ] ].
    rewrite (same_driverConfig _ _ (preSelect_core _)). reflexivity.
Qed.

(** ** The proposer case *)

(** Once the loop has returned, no event is received any more. *)
Lemma deliver_stopped (ev : Event) (s : Driver) :
  status s <> Running -> deliver ev s = (s, NoReply).
Proof.
  intros H. unfold deliver. destruct (status s); congruence.
Qed.

Lemma run_stopped (evs : list Event) (s : Driver) :
  status s <> Running -> run evs s = s.
Proof.
  induction evs as [ | ev evs IH]; intros H; cbn [run].
  - reflexivity.
  - rewrite (deliver_stopped ev s H). cbn [fst]. apply IH, H.
Qed.

(** C7: when [RunNextProposerAction] returns an error, the loop returns at
    once: after the call it only logs the error; it resets nothing,
    publishes nothing, plans nothing, leaves the pipeline and the network as
    the call left them, and receives no event afterwards. *)
Theorem C7_proposer_critical_error_terminates
  (s : Driver) (p : Proposer) (d : Pipeline)
  (payload : option ExecutionPayload) (e : GoErr) :
  status s = Running ->
  ready ProposerTick s = true ->
  RunNextProposerAction (proposer s) (derivation s) = (p, d, payload, Some e) ->
  let s' := fst (deliver ProposerTick s) in
  status s' = Returned
  /\ calls s' = calls s ++ [CallRunNextProposerAction payload (Some e);
                            Log LvlError "Sequencer critical error"]
  /\ derivation s' = d
  /\ network s' = network s
  /\ (forall ev, deliver ev s' = (s', NoReply))
  /\ (forall evs, run evs s' = s').
Proof.
  intros Hrun Hready Hact s'.
  assert (Hs' : s' =
    set_status Returned
      (log LvlError "Sequencer critical error"
         (record (CallRunNextProposerAction payload (Some e))
            (set_derivation d
               (set_proposer p
                  (set_proposerTimer
                     (mkTimer (pending (proposerTimer s)) false) s)))))).
  { unfold s', deliver. rewrite Hrun, Hready. cbn [handle].
    unfold onProposerTick.
    replace (RunNextProposerAction
               (proposer (set_proposerTimer
                            (mkTimer (pending (proposerTimer s)) false) s))
               (derivation (set_proposerTimer
                              (mkTimer (pending (proposerTimer s)) false) s)))
      with (p, d, payload, Some e) by (symmetry; exact Hact).
    reflexivity. }
  assert (Hst : status s' = Returned) by (rewrite Hs'; reflexivity).
  assert (Hnr : status s' <> Running) by (rewrite Hst; discriminate).
  split; [ exact Hst | ].
  split; [ rewrite Hs'; cbn; rewrite <- app_assoc; reflexivity | ].
  split; [ rewrite Hs'; reflexivity | ].
  split; [ rewrite Hs'; reflexivity | ].
  split; [ intros ev; apply deliver_stopped, Hnr | ].
  intros evs; apply run_stopped, Hnr.
Qed.

(** C8: when the proposer built a payload and publishing it fails, the case
    records the failed publish, logs a warning, counts the publishing error
    and plans the next proposer action, as it would have planned it after a
    publish without error.  [ProposerStopped], the L1 state, the step
    counter and the step requests are the ones from before the case, the
    pipeline (and so the unsafe head) is as the proposer left it, and the
    loop goes on to its next select. *)
Theorem C8_publish_error_is_not_fatal
  (s : Driver) (p : Proposer) (d : Pipeline) (pl : ExecutionPayload)
  (n n' : Network) (e : GoErr) :
  status s = Running ->
  ready ProposerTick s = true ->
  network s = Some n ->
  RunNextProposerAction (proposer s) (derivation s) = (p, d, Some pl, None) ->
  PublishL2Payload n pl = (n', Some e) ->
  let built :=
    record (CallRunNextProposerAction (Some pl) None)
      (set_derivation d
         (set_proposer p
            (set_proposerTimer (mkTimer (pending (proposerTimer s)) false) s))) in
  let s' := fst (deliver ProposerTick s) in
  fst (handle ProposerTick s) =
    planProposerAction
      (record RecordPublishingError
         (log LvlWarn "failed to publish newly created block"
            (record (CallPublishL2Payload pl (Some e))
               (set_network (Some n') built))))
  /\ calls (fst (handle ProposerTick s)) =
       calls s ++ [CallRunNextProposerAction (Some pl) None;
                   CallPublishL2Payload pl (Some e);
                   Log LvlWarn "failed to publish newly created block";
                   RecordPublishingError;
                   CallPlanNextProposerAction (snd (PlanNextProposerAction p d))]
  /\ status s' = Running
  /\ driverConfig s' = driverConfig s
  /\ l1State s' = l1State s
  /\ stepAttempts s' = stepAttempts s
  /\ stepReqCh s' = stepReqCh s
  /\ delayedStepReq s' = delayedStepReq s
  /\ derivation s' = d
  /\ UnsafeL2Head (derivation s') = UnsafeL2Head d.
Proof.
  intros Hrun Hready Hnet Hact Hpub built s'.
  set (warned :=
         record RecordPublishingError
           (log LvlWarn "failed to publish newly created block"
              (record (CallPublishL2Payload pl (Some e))
                 (set_network (Some n') built)))).
  assert (Hh : fst (handle ProposerTick s) = planProposerAction warned).
  { cbn [handle fst]. unfold onProposerTick.
    replace (RunNextProposerAction
               (proposer (set_proposerTimer
                            (mkTimer (pending (proposerTimer s)) false) s))
               (derivation (set_proposerTimer
                              (mkTimer (pending (proposerTimer s)) false) s)))
      with (p, d, Some pl, @None GoErr) by (symmetry; exact Hact).
    fold built.
    replace (network built) with (Some n) by (symmetry; exact Hnet).
    rewrite Hpub. reflexivity. }
  pose proof (planProposerAction_core warned) as Hc.
  assert (Hs' : s' = preSelect (planProposerAction warned)).
  { unfold s', deliver. rewrite Hrun, Hready.
    destruct (handle ProposerTick s) as [s1 r] eqn:Hs1.
    cbn [fst] in Hh. subst s1.
    rewrite (same_status _ _ Hc).
    change (status warned) with (status s). rewrite Hrun. reflexivity. }
  pose proof (preSelect_core (planProposerAction warned)) as Hp.
  split; [ exact Hh | ].
  split.
  { rewrite Hh, planProposerAction_calls.
    unfold warned, built; cbn.
    repeat rewrite <- app_assoc. reflexivity. }
  rewrite Hs'.
  repeat split.
  - rewrite (same_status _ _ Hp), (same_status _ _ Hc). exact Hrun.
  - rewrite (same_driverConfig _ _ Hp), (same_driverConfig _ _ Hc). reflexivity.
  - rewrite (same_l1State _ _ Hp), (same_l1State _ _ Hc). reflexivity.
  - rewrite (same_stepAttempts _ _ Hp), (same_stepAttempts _ _ Hc). reflexivity.
  - rewrite (same_stepReqCh _ _ Hp), (same_stepReqCh _ _ Hc). reflexivity.
  - rewrite (same_delayedStepReq _ _ Hp), (same_delayedStepReq _ _ Hc).
    reflexivity.
  - rewrite (same_derivation _ _ Hp), (same_derivation _ _ Hc). reflexivity.
  - rewrite (same_derivation _ _ Hp), (same_derivation _ _ Hc). reflexivity.
Qed.

(** ** Step requests and the backoff timer *)

Lemma timersCreated_app (l1 l2 : list Call) :
  timersCreated (l1 ++ l2) = (timersCreated l1 + timersCreated l2)%nat.
Proof.
  induction l1 as [ | c l1 IH]; cbn; [ reflexivity | ].
  destruct c; cbn; rewrite IH; reflexivity.
Qed.

Lemma timersFired_app (l1 l2 : list Call) :
  timersFired (l1 ++ l2) = (timersFired l1 + timersFired l2)%nat.
Proof.
  induction l1 as [ | c l1 IH]; cbn; [ reflexivity | ].
  destruct c; cbn; rewrite IH; reflexivity.
Qed.

Lemma skipn_length_app {A : Type} (l1 l2 : list A) :
  skipn (List.length l1) (l1 ++ l2) = l2.
Proof. induction l1 as [ | a l1 IH]; cbn; [ reflexivity | exact IH ]. Qed.

Lemma skipn_length_self {A : Type} (l : list A) :
  skipn (List.length l) l = [].
Proof. induction l as [ | a l IH]; cbn; [ reflexivity | exact IH ]. Qed.

Ltac break_match :=
  match goal with
  | |- context [let '(_, _) := ?e in _] => destruct e eqn:?
  | |- context [match ?e with _ => _ end] => destruct e eqn:?
  | |- context [if ?e then _ else _] => destruct e eqn:?
  end.

Ltac unfold_cases :=
  unfold onProposerTick, onAltSyncTick, checkForGapInUnsafeQueue,
    onUnsafePayload, onL1Head, onL1Safe, onL1Finalized, onDelayedStep,
    onStepReq, onForceReset, onStartProposer, onStopProposer;
  unfold planProposerAction, reqStep, step.

Ltac run_cases := unfold_cases; repeat (cbn; try break_match).

(** Every case of the select keeps the timer count and the pending flag in
    step. *)
Lemma handle_TimerInv (ev : Event) (s : Driver) :
  TimerInv s -> ready ev s = true -> TimerInv (fst (handle ev s)).
Proof.
  unfold TimerInv, pendingTimers. intros Hinv Hready.
  destruct ev; cbn [handle fst ready] in *.
  all: run_cases.
  all: cbn in *; repeat rewrite timersCreated_app, timersFired_app; cbn.
  all: try lia; try congruence.
  all: destruct (delayedStepReq s); try discriminate; lia.
Qed.

Lemma trySend_StepChan (ch c : Chan unit) :
  cap ch = 1%nat -> (List.length (buf ch) <= 1)%nat ->
  trySend ch tt = Some c ->
  cap c = 1%nat /\ (List.length (buf c) <= 1)%nat.
Proof.
  unfold trySend. intros Hcap Hlen.
  destruct (Nat.ltb_spec (List.length (buf ch)) (cap ch)) as [Hlt | Hge];
    [ | discriminate ].
  intros H; injection H as <-. cbn. rewrite length_app. cbn. lia.
Qed.

Lemma handle_StepChanInv (ev : Event) (s : Driver) :
  StepChanInv s -> StepChanInv (fst (handle ev s)).
Proof.
  unfold StepChanInv. intros [Hcap Hlen].
  assert (Htl : (List.length (tl (buf (stepReqCh s))) <= 1)%nat)
    by (destruct (buf (stepReqCh s)); cbn in *; lia).
  destruct ev; cbn [handle fst] in *.
  all: run_cases.
  all: cbn in *; try (split; assumption).
  all: eapply trySend_StepChan; [ | | eassumption ]; cbn; assumption.
Qed.

Lemma preSelect_TimerInv (s : Driver) : TimerInv s -> TimerInv (preSelect s).
Proof.
  unfold TimerInv, pendingTimers. intros H.
  rewrite (same_delayedStepReq _ _ (preSelect_core s)).
  destruct (preSelect_calls s) as [-> | [delay ->]]; [ exact H | ].
  rewrite timersCreated_app, timersFired_app. cbn. lia.
Qed.

Lemma preSelect_StepChanInv (s : Driver) :
  StepChanInv s -> StepChanInv (preSelect s).
Proof.
  unfold StepChanInv. rewrite (same_stepReqCh _ _ (preSelect_core s)). tauto.
Qed.

(** One turn of the loop, when the event is received: the case body, then
    the head of the loop unless the loop returned. *)
Lemma deliver_received (ev : Event) (s : Driver) :
  status s = Running -> ready ev s = true -> ev <> TimerExpired ->
  deliver ev s =
    (match status (fst (handle ev s)) with
     | Running => preSelect (fst (handle ev s))
     | _ => fst (handle ev s)
     end,
     snd (handle ev s)).
Proof.
  intros Hrun Hready Hev. unfold deliver. rewrite Hrun, Hready.
  destruct (handle ev s) as [s1 r]. cbn [fst snd].
  destruct ev; try congruence; destruct (status s1); reflexivity.
Qed.

Lemma deliver_skipped (ev : Event) (s : Driver) :
  ready ev s = false -> deliver ev s = (s, NoReply).
Proof.
  intros H. unfold deliver. rewrite H. destruct (status s); reflexivity.
Qed.

(** The turn changes the fields of [SameCore] only in its case body. *)
Lemma deliver_core (ev : Event) (s : Driver) :
  status s = Running -> ready ev s = true ->
  SameCore (fst (handle ev s)) (fst (deliver ev s)).
Proof.
  intros Hrun Hready.
  destruct ev.
  14: { unfold deliver. rewrite Hrun, Hready. cbn. constructor; reflexivity. }
  all: rewrite deliver_received by (assumption || discriminate); cbn [fst].
  all: match goal with
       | |- SameCore ?x _ =>
           destruct (status x) eqn:Hs1;
           [ apply preSelect_core | constructor; reflexivity .. ]
       end.
Qed.

Lemma deliver_TimerInv (ev : Event) (s : Driver) :
  TimerInv s -> TimerInv (fst (deliver ev s)).
Proof.
  intros H.
  destruct (status s) eqn:Hrun;
    [ | rewrite deliver_stopped by congruence; exact H .. ].
  destruct (ready ev s) eqn:Hready;
    [ | rewrite deliver_skipped by assumption; exact H ].
  destruct ev.
  14: { unfold deliver. rewrite Hrun, Hready. exact H. }
  all: rewrite deliver_received by (assumption || discriminate); cbn [fst].
  all: match goal with
       | |- TimerInv (match status ?x with _ => _ end) =>
           assert (Hx : TimerInv x) by (apply handle_TimerInv; assumption);
           destruct (status x);
           [ apply preSelect_TimerInv, Hx | exact Hx .. ]
       end.
Qed.

Lemma deliver_StepChanInv (ev : Event) (s : Driver) :
  StepChanInv s -> StepChanInv (fst (deliver ev s)).
Proof.
  intros H.
  destruct (status s) eqn:Hrun;
    [ | rewrite deliver_stopped by congruence; exact H .. ].
  destruct (ready ev s) eqn:Hready;
    [ | rewrite deliver_skipped by assumption; exact H ].
  pose proof (deliver_core ev s Hrun Hready) as Hc.
  pose proof (handle_StepChanInv ev s H) as Hh.
  unfold StepChanInv in *. rewrite (same_stepReqCh _ _ Hc). exact Hh.
Qed.

Lemma run_invariants (evs : list Event) (s : Driver) :
  TimerInv s -> StepChanInv s ->
  TimerInv (run evs s) /\ StepChanInv (run evs s).
Proof.
  revert s. induction evs as [ | ev evs IH]; intros s Ht Hc; cbn [run].
  - split; assumption.
  - apply IH; [ apply deliver_TimerInv, Ht | apply deliver_StepChanInv, Hc ].
Qed.

Lemma eventLoop_enter_invariants
  (l1 : L1State) (d : Pipeline) (cfg : rollup.Config) (dc : DriverConfig)
  (cl : option SyncClient) (p : Proposer) (n : option Network) (b : Backoff) :
  let s := eventLoop_enter l1 d cfg dc cl p n b in
  TimerInv s /\ StepChanInv s /\ status s = Running
  /\ stepAttempts s = 0 /\ delayedStepReq s = None.
Proof.
  cbn zeta. unfold eventLoop_enter.
  set (s0 := reqStep _).
  assert (H0 : TimerInv s0 /\ StepChanInv s0 /\ status s0 = Running
               /\ stepAttempts s0 = 0 /\ delayedStepReq s0 = None).
  { unfold s0, TimerInv, StepChanInv, pendingTimers, reqStep, step, trySend.
    cbn. repeat split; lia. }
  destruct H0 as (Ht & Hc & Hs & Ha & Hd).
  pose proof (preSelect_core s0) as Hp.
  split; [ apply preSelect_TimerInv, Ht | ].
  split; [ apply preSelect_StepChanInv, Hc | ].
  rewrite (same_status _ _ Hp), (same_stepAttempts _ _ Hp),
    (same_delayedStepReq _ _ Hp).
  auto.
Qed.

Lemma handle_delayed_cleared (ev : Event) (s : Driver) (d : Duration) :
  delayedStepReq s = Some d ->
  (delayedStepReq (fst (handle ev s)) = None <-> ev = DelayedStep).
Proof.
  intros Hd.
  destruct ev; cbn [handle fst].
  all: run_cases.
  all: cbn in *; split; intros; try discriminate; try congruence; try reflexivity.
Qed.

(** C5: the immediate step request is a non-blocking send on the
    capacity-1 channel, dropped when the channel is full; the backoff-aware
    request is the immediate one when [stepAttempts] is 0, creates one timer
    with the delay the backoff strategy gives for [stepAttempts] when it is
    positive and none is pending, and only logs when one is pending.  In
    every state the loop reaches, the timers created and not yet received
    are the one [delayedStepReq] holds, at most one; the pending flag is
    cleared by the delayed-step case and by no other, and that case turns
    the tick into an immediate request. *)
Theorem C5_step_request_discipline :
  (forall s : Driver, StepChanInv s ->
     (buf (stepReqCh s) = [] -> step s = set_stepReqCh (mkChan 1%nat [tt]) s)
     /\ (buf (stepReqCh s) <> [] -> step s = s))
  /\
  (forall s : Driver, stepAttempts s = 0 -> reqStep s = step s)
  /\
  (forall s : Driver, 0 < stepAttempts s -> delayedStepReq s = None ->
     let bd := BackoffDuration (bOffStrategy s) (stepAttempts s) in
     reqStep s =
       set_delayedStepReq (Some (snd bd))
         (record (TimeAfter (snd bd))
            (log LvlDebug "scheduling re-attempt with delay"
               (set_bOffStrategy (fst bd) s))))
  /\
  (forall (s : Driver) (d : Duration),
     0 < stepAttempts s -> delayedStepReq s = Some d ->
     reqStep s =
       log LvlDebug
         "ignoring step request, already scheduled re-attempt after previous failure"
         s)
  /\
  (forall l1 d cfg dc cl p n b (evs : list Event),
     let s := run evs (eventLoop_enter l1 d cfg dc cl p n b) in
     timersCreated (calls s) = (timersFired (calls s) + pendingTimers s)%nat
     /\ (pendingTimers s <= 1)%nat
     /\ cap (stepReqCh s) = 1%nat
     /\ (List.length (buf (stepReqCh s)) <= 1)%nat)
  /\
  (forall (ev : Event) (s : Driver) (d : Duration),
     status s = Running -> ready ev s = true -> delayedStepReq s = Some d ->
     (delayedStepReq (fst (deliver ev s)) = None <-> ev = DelayedStep))
  /\
  (forall s : Driver,
     fst (handle DelayedStep s) =
       step (set_delayedStepReq None (record RecvDelayedStep s))).
Proof.
  split; [ | split; [ | split; [ | split; [ | split; [ | split ] ] ] ] ].
  - intros s [Hcap Hlen]. unfold step, trySend. split.
    + intros Hb. rewrite Hb, Hcap. reflexivity.
    + intros Hb. rewrite Hcap.
      destruct (buf (stepReqCh s)) as [ | u [ | u' l]]; cbn in *;
        [ congruence | reflexivity | lia ].
  - intros s Ha. unfold reqStep. rewrite Ha. reflexivity.
  - intros s Ha Hd bd. unfold reqStep.
    replace (stepAttempts s >? 0) with true by (symmetry; apply Z.gtb_lt; lia).
    rewrite Hd. subst bd.
    destruct (BackoffDuration (bOffStrategy s) (stepAttempts s)); reflexivity.
  - intros s d Ha Hd. unfold reqStep.
    replace (stepAttempts s >? 0) with true by (symmetry; apply Z.gtb_lt; lia).
    rewrite Hd. reflexivity.
  - intros l1 d cfg dc cl p n b evs s.
    destruct (eventLoop_enter_invariants l1 d cfg dc cl p n b)
      as (Ht & Hc & _).
    destruct (run_invariants evs _ Ht Hc) as [Ht' [Hcap Hlen]].
    fold s in Ht', Hcap, Hlen.
    split; [ exact Ht' | ].
    split; [ unfold pendingTimers; destruct (delayedStepReq s); lia | ].
    split; assumption.
  - intros ev s d Hrun Hready Hd.
    rewrite (same_delayedStepReq _ _ (deliver_core ev s Hrun Hready)).
    apply handle_delayed_cleared with (d := d), Hd.
  - intros s. reflexivity.
Qed.

(** ** The record of calls only grows *)

Lemma newCalls_app (s s' : Driver) (l : list Call) :
  calls s' = calls s ++ l -> newCalls s s' = l.
Proof. intros H. unfold newCalls. rewrite H. apply skipn_length_app. Qed.

Ltac close_prefix :=
  first [ exists []; symmetry; apply app_nil_r
        | repeat rewrite <- app_assoc; eexists; reflexivity ].

Lemma handle_calls_prefix (ev : Event) (s : Driver) :
  exists l, calls (fst (handle ev s)) = calls s ++ l.
Proof.
  destruct ev; cbn [handle fst].
  all: run_cases.
  all: cbn; close_prefix.
Qed.

Lemma deliver_calls_prefix (ev : Event) (s : Driver) :
  exists l, calls (fst (deliver ev s)) = calls s ++ l.
Proof.
  destruct (status s) eqn:Hrun;
    [ | rewrite deliver_stopped by congruence; close_prefix .. ].
  destruct (ready ev s) eqn:Hready;
    [ | rewrite deliver_skipped by assumption; close_prefix ].
  destruct (handle_calls_prefix ev s) as [l Hl].
  destruct ev.
  14: { unfold deliver. rewrite Hrun, Hready. cbn. close_prefix. }
  all: rewrite deliver_received by (assumption || discriminate); cbn [fst].
  all: match goal with
       | |- context [status ?x] =>
           destruct (status x);
           [ destruct (preSelect_calls x) as [-> | [delay ->]];
             rewrite Hl; close_prefix
           | rewrite Hl; close_prefix .. ]
       end.
Qed.

Lemma run_calls_prefix (evs : list Event) (s : Driver) :
  exists l, calls (run evs s) = calls s ++ l.
Proof.
  revert s. induction evs as [ | ev evs IH]; intros s; cbn [run].
  - close_prefix.
  - destruct (deliver_calls_prefix ev s) as [l1 H1].
    destruct (IH (fst (deliver ev s))) as [l2 H2].
    rewrite H2, H1. close_prefix.
Qed.

(** ** Step outcomes that are no failure *)

(** A case body that starts with no failed attempt on the counter and no
    timer pending, and whose step (if it takes one) is benign, ends the same
    way and creates no timer. *)
Lemma handle_idle (ev : Event) (s : Driver) :
  stepAttempts s = 0 -> delayedStepReq s = None ->
  Forall benignCall (newCalls s (fst (handle ev s))) ->
  stepAttempts (fst (handle ev s)) = 0
  /\ delayedStepReq (fst (handle ev s)) = None
  /\ timersCreated (newCalls s (fst (handle ev s))) = 0%nat.
Proof.
  intros Ha Hd.
  destruct (handle_calls_prefix ev s) as [l Hl].
  rewrite (newCalls_app _ _ _ Hl). revert l Hl.
  destruct ev; cbn [handle fst].
  all: run_cases.
  all: cbn; intros l Hl Hben.
  all: rewrite ?Ha, ?Hd in *; cbn in *; try discriminate.
  all: try rewrite <- (app_nil_r (calls s)) in Hl at 1.
  all: repeat rewrite <- app_assoc in Hl; apply app_inv_head in Hl; subst l.
  all: cbn in *.
  all: repeat match goal with
         | H : Forall _ (_ :: _) |- _ => inversion H; clear H; subst
         end.
  all: cbn in *;
    repeat match goal with
      | H : classify ?e = _, H' : context [classify ?e] |- _ => rewrite H in H'
      end;
    try contradiction.
  all: repeat split; try reflexivity; try assumption.
Qed.

(** After the case body, the turn adds at most one re-planning. *)
Lemma deliver_newCalls (ev : Event) (s : Driver) :
  status s = Running -> ready ev s = true ->
  exists l2,
    newCalls s (fst (deliver ev s)) = newCalls s (fst (handle ev s)) ++ l2
    /\ (l2 = [] \/ exists delay, l2 = [CallPlanNextProposerAction delay]).
Proof.
  intros Hrun Hready.
  destruct (handle_calls_prefix ev s) as [l Hl].
  rewrite (newCalls_app _ _ _ Hl).
  assert (Hnil : newCalls s (fst (handle ev s)) = l ++ [])
    by (rewrite app_nil_r; apply newCalls_app, Hl).
  destruct ev.
  14: { unfold deliver. rewrite Hrun, Hready. cbn [fst handle] in *.
        exists []. split; [ | left; reflexivity ].
        unfold expire. cbn. exact Hnil. }
  all: rewrite deliver_received by (assumption || discriminate); cbn [fst].
  all: match goal with
       | |- context [status ?x] =>
           destruct (status x);
           [ destruct (preSelect_calls x) as [Hp | [delay Hp]]
           | .. ]
       end.
  all: try (exists []; split; [ | left; reflexivity ];
            rewrite app_nil_r; apply newCalls_app;
            first [ rewrite Hp; exact Hl | exact Hl ]).
  all: exists [CallPlanNextProposerAction delay];
    (split; [ | right; eexists; reflexivity ]);
    apply newCalls_app; rewrite Hp, Hl, <- app_assoc; reflexivity.
Qed.

Lemma deliver_idle (ev : Event) (s : Driver) :
  stepAttempts s = 0 -> delayedStepReq s = None ->
  Forall benignCall (newCalls s (fst (deliver ev s))) ->
  stepAttempts (fst (deliver ev s)) = 0
  /\ delayedStepReq (fst (deliver ev s)) = None
  /\ timersCreated (newCalls s (fst (deliver ev s))) = 0%nat.
Proof.
  intros Ha Hd Hben.
  assert (Hself : newCalls s s = [])
    by (unfold newCalls; apply skipn_length_self).
  destruct (status s) eqn:Hrun;
    [ | rewrite deliver_stopped by congruence; cbn [fst];
        rewrite Hself; auto .. ].
  destruct (ready ev s) eqn:Hready;
    [ | rewrite deliver_skipped by assumption; cbn [fst];
        rewrite Hself; auto ].
  destruct (deliver_newCalls ev s Hrun Hready) as (l2 & Hl2 & Hplan).
  rewrite Hl2 in Hben |- *.
  apply Forall_app in Hben. destruct Hben as [Hben _].
  destruct (handle_idle ev s Ha Hd Hben) as (Ha' & Hd' & Ht').
  pose proof (deliver_core ev s Hrun Hready) as Hc.
  rewrite (same_stepAttempts _ _ Hc), (same_delayedStepReq _ _ Hc).
  rewrite timersCreated_app, Ht'.
  destruct Hplan as [-> | [delay ->]]; auto.
Qed.

Lemma run_idle (evs : list Event) (s : Driver) :
  stepAttempts s = 0 -> delayedStepReq s = None ->
  Forall benignCall (newCalls s (run evs s)) ->
  stepAttempts (run evs s) = 0
  /\ delayedStepReq (run evs s) = None
  /\ timersCreated (newCalls s (run evs s)) = 0%nat.
Proof.
  revert s. induction evs as [ | ev evs IH]; intros s Ha Hd Hben; cbn [run] in *.
  - unfold newCalls. rewrite skipn_length_self. auto.
  - destruct (deliver_calls_prefix ev s) as [l1 H1].
    destruct (run_calls_prefix evs (fst (deliver ev s))) as [l2 H2].
    assert (H12 : calls (run evs (fst (deliver ev s))) = calls s ++ l1 ++ l2)
      by (rewrite H2, H1, <- app_assoc; reflexivity).
    rewrite (newCalls_app _ _ _ H12) in Hben |- *.
    apply Forall_app in Hben. destruct Hben as [Hb1 Hb2].
    rewrite <- (newCalls_app _ _ _ H1) in Hb1.
    destruct (deliver_idle ev s Ha Hd Hb1) as (Ha' & Hd' & Ht').
    rewrite <- (newCalls_app _ _ _ H2) in Hb2.
    destruct (IH _ Ha' Hd' Hb2) as (Ha'' & Hd'' & Ht'').
    rewrite (newCalls_app _ _ _ H1) in Ht'.
    rewrite (newCalls_app _ _ _ H2) in Ht''.
    rewrite timersCreated_app, Ht', Ht''. auto.
Qed.

Lemma step_fields (s : Driver) :
  calls (step s) = calls s
  /\ stepAttempts (step s) = stepAttempts s
  /\ delayedStepReq (step s) = delayedStepReq s
  /\ status (step s) = status s.
Proof.
  unfold step. destruct (trySend (stepReqCh s) tt); cbn; auto.
Qed.

Lemma step_empty (s : Driver) :
  cap (stepReqCh s) = 1%nat -> buf (stepReqCh s) = [] ->
  stepReqCh (step s) = mkChan 1%nat [tt].
Proof.
  intros Hcap Hbuf. unfold step, trySend. rewrite Hbuf, Hcap. reflexivity.
Qed.

(** C4: when [Step] returns [io.EOF], the step case clears [stepAttempts],
    sets the derivation-idle metric and requests no step; when it returns
    [NotEnoughData] (and no sentinel tested before it), the case clears
    [stepAttempts] and makes the immediate step request.  In a run that
    starts with [stepAttempts] 0 and no timer pending, and in which every
    step returns success, [io.EOF] or [NotEnoughData], no backoff timer is
    ever created, whatever other events arrive. *)
Theorem C4_no_backoff_without_failure :
  (forall s : Driver,
     classify (snd (Step (derivation s))) = StepEOF ->
     let s' := fst (handle StepReq s) in
     stepAttempts s' = 0
     /\ calls s' =
          calls s ++ [SetDerivationIdle false;
                      Log LvlDebug "Derivation process step";
                      CallStep (snd (Step (derivation s)));
                      Log LvlDebug "Derivation process went idle";
                      SetDerivationIdle true]
     /\ stepReqCh s' = mkChan (cap (stepReqCh s)) (tl (buf (stepReqCh s)))
     /\ delayedStepReq s' = delayedStepReq s
     /\ status s' = status s)
  /\
  (forall s : Driver,
     classify (snd (Step (derivation s))) = StepNotEnoughData ->
     let s' := fst (handle StepReq s) in
     stepAttempts s' = 0
     /\ delayedStepReq s' = delayedStepReq s
     /\ timersCreated (newCalls s s') = 0%nat
     /\ (StepChanInv s -> ready StepReq s = true ->
         stepReqCh s' = mkChan 1%nat [tt]))
  /\
  (forall (evs : list Event) (s : Driver),
     stepAttempts s = 0 -> delayedStepReq s = None ->
     Forall benignCall (newCalls s (run evs s)) ->
     timersCreated (newCalls s (run evs s)) = 0%nat
     /\ delayedStepReq (run evs s) = None
     /\ stepAttempts (run evs s) = 0).
Proof.
  split; [ | split ].
  - intros s Hcl s'. subst s'. cbn [handle fst]. unfold onStepReq. cbn.
    destruct (Step (derivation s)) as [d err]. cbn [snd] in Hcl |- *.
    rewrite Hcl. cbn. repeat rewrite <- app_assoc. auto.
  - intros s Hcl s'.
    set (polled :=
           record (CallStep (snd (Step (derivation s))))
             (set_derivation (fst (Step (derivation s)))
                (log LvlDebug "Derivation process step"
                   (record (SetDerivationIdle false)
                      (set_stepReqCh
                         (mkChan (cap (stepReqCh s)) (tl (buf (stepReqCh s))))
                         s))))).
    assert (Hs' : s' = step (set_stepAttempts 0 polled)).
    { subst s' polled. cbn [handle fst]. unfold onStepReq. cbn.
      destruct (Step (derivation s)) as [d err]. cbn [fst snd] in Hcl |- *.
      rewrite Hcl. reflexivity. }
    destruct (step_fields (set_stepAttempts 0 polled)) as (Hc & Ha & Hd & _).
    rewrite Hs', Ha, Hd.
    split; [ reflexivity | ]. split; [ reflexivity | ].
    split.
    + rewrite newCalls_app with
        (l := [SetDerivationIdle false;
               Log LvlDebug "Derivation process step";
               CallStep (snd (Step (derivation s)))]);
        [ reflexivity | ].
      rewrite Hc. subst polled. cbn. repeat rewrite <- app_assoc. reflexivity.
    + intros [Hcap Hlen] Hready. unfold ready in Hready.
      apply step_empty; subst polled; cbn; [ exact Hcap | ].
      destruct (buf (stepReqCh s)) as [ | u [ | u' l]];
        cbn in *; [ discriminate | reflexivity | lia ].
  - intros evs s Ha Hd Hben.
    destruct (run_idle evs s Ha Hd Hben) as (Ha' & Hd' & Ht').
    auto.
Qed.

(** ** Reset of the pipeline *)

(** C2 (as the code has it): a reset leaves the retry machinery alone.
    After a step that returned a reset error, the pipeline has been reset
    once, [stepAttempts] is one more than before the step, the step-request
    channel holds what the receive left in it and the delayed-step timer is
    as it was: the case requests no step.  After a force reset, the pipeline
    has been reset once and [stepAttempts], the step-request channel and the
    timer are as before the request.  Both count one pipeline reset in the
    metrics, and the loop goes on. *)
Theorem C2_reset_leaves_retry_state :
  (forall s : Driver,
     status s = Running -> ready StepReq s = true ->
     classify (snd (Step (derivation s))) = StepReset ->
     let s' := fst (deliver StepReq s) in
     status s' = Running
     /\ derivation s' = Reset (fst (Step (derivation s)))
     /\ stepAttempts s' = Int.add (stepAttempts s) 1
     /\ stepReqCh s' = mkChan (cap (stepReqCh s)) (tl (buf (stepReqCh s)))
     /\ delayedStepReq s' = delayedStepReq s
     /\ newCalls s (fst (handle StepReq s)) =
          [SetDerivationIdle false;
           Log LvlDebug "Derivation process step";
           CallStep (snd (Step (derivation s)));
           Log LvlWarn "Derivation pipeline is reset";
           CallReset;
           RecordPipelineReset])
  /\
  (forall s : Driver,
     status s = Running ->
     let s' := fst (deliver ForceReset s) in
     status s' = Running
     /\ derivation s' = Reset (derivation s)
     /\ stepAttempts s' = stepAttempts s
     /\ stepReqCh s' = stepReqCh s
     /\ delayedStepReq s' = delayedStepReq s
     /\ newCalls s (fst (handle ForceReset s)) =
          [Log LvlWarn "Derivation pipeline is manually reset";
           CallReset;
           RecordPipelineReset]
     /\ snd (deliver ForceReset s) = AckClosed).
Proof.
  split.
  - intros s Hrun Hready Hcl s'.
    pose proof (deliver_core StepReq s Hrun Hready) as Hc. fold s' in Hc.
    rewrite (same_status _ _ Hc), (same_derivation _ _ Hc),
      (same_stepAttempts _ _ Hc), (same_stepReqCh _ _ Hc),
      (same_delayedStepReq _ _ Hc).
    clear Hc s'. cbn [handle fst]. unfold onStepReq. cbn.
    destruct (Step (derivation s)) as [d err]. cbn [fst snd] in Hcl |- *.
    rewrite Hcl. cbn.
    repeat (split; [ first [ reflexivity | assumption ] | ]).
    apply newCalls_app. cbn. repeat rewrite <- app_assoc. reflexivity.
  - intros s Hrun s'.
    pose proof (deliver_core ForceReset s Hrun eq_refl) as Hc. fold s' in Hc.
    rewrite (same_status _ _ Hc), (same_derivation _ _ Hc),
      (same_stepAttempts _ _ Hc), (same_stepReqCh _ _ Hc),
      (same_delayedStepReq _ _ Hc).
    clear Hc s'.
    rewrite deliver_received by (assumption || reflexivity || discriminate).
    cbn [handle fst snd]. unfold onForceReset. cbn.
    repeat (split; [ first [ reflexivity | assumption ] | ]).
    split; [ | reflexivity ].
    apply newCalls_app. cbn. repeat rewrite <- app_assoc. reflexivity.
Qed.

(** ** The backup-sync gap filler *)

Lemma fetchLoop_cap (room : nat) (b e : Z) (ch : Chan Z) :
  cap (fetchLoop room b e ch) = cap ch.
Proof.
  revert b ch. induction room as [ | room IH]; intros b ch; cbn [fetchLoop].
  - destruct (b <=? e); reflexivity.
  - destruct (b <=? e); [ rewrite IH | ]; reflexivity.
Qed.

(** The loop written with the non-blocking send of the source: one turn
    tests the bound, tries the send, and returns when the channel is full. *)
Lemma fetchLoop_unfold (b e : Z) (ch : Chan Z) :
  fetchLoop (free ch) b e ch =
    if b <=? e then
      match trySend ch b with
      | Some ch' => fetchLoop (free ch') (U64.add b 1) e ch'
      | None => ch
      end
    else ch.
Proof.
  unfold trySend, free.
  destruct (Nat.ltb_spec (List.length (buf ch)) (cap ch)) as [Hlt | Hge].
  - destruct (cap ch - List.length (buf ch))%nat as [ | room] eqn:Hroom;
      [ lia | ].
    cbn [fetchLoop cap buf]. rewrite length_app. cbn [List.length].
    replace (cap ch - (List.length (buf ch) + 1))%nat with room by lia.
    reflexivity.
  - replace (cap ch - List.length (buf ch))%nat with 0%nat by lia.
    cbn [fetchLoop]. destruct (b <=? e); reflexivity.
Qed.

(** Below the largest [uint64] the counter never wraps: the loop appends
    [b, b+1, ...] up to [e], as far as the room goes. *)
Lemma fetchLoop_sends (room : nat) (b e : Z) (ch : Chan Z) :
  0 <= b -> e < U64.max ->
  buf (fetchLoop room b e ch) =
    buf ch ++ countFrom b (Nat.min room (Z.to_nat (e - b + 1))).
Proof.
  revert b ch. induction room as [ | room IH]; intros b ch Hb He;
    cbn [fetchLoop].
  - cbn. rewrite app_nil_r. destruct (b <=? e); reflexivity.
  - destruct (Z.leb_spec b e) as [Hle | Hgt].
    + assert (Hadd : U64.add b 1 = b + 1).
      { unfold U64.add, U64.wrap, U64.max, U64.modulus in *.
        apply Z.mod_small. lia. }
      rewrite Hadd, IH by lia. cbn [buf].
      replace (Z.to_nat (e - b + 1)) with (S (Z.to_nat (e - (b + 1) + 1)))
        by lia.
      cbn [Nat.min countFrom]. rewrite <- app_assoc. reflexivity.
    + replace (Z.to_nat (e - b + 1)) with 0%nat by lia.
      rewrite Nat.min_0_r. cbn. rewrite app_nil_r. reflexivity.
Qed.

(** What a tick of the backup-sync ticker enqueues for a range of two or
    more blocks: the numbers of the range in increasing order, as many as
    the channel has room for. *)
Lemma checkForGap_enqueues
  (now : Z) (cl : SyncClient) (s : Driver) (expected start end_ : Z) :
  U64.div (U64.sub (U64.wrap now) (rollup.L2Time (rollup.Genesis_ (config s))))
    (rollup.BlockTime (config s)) = Some expected ->
  GetUnsafeQueueGap (derivation s) expected = (start, end_) ->
  0 <= start -> start < end_ -> end_ < U64.max ->
  exists ch,
    L2SyncCl (checkForGapInUnsafeQueue now cl s) = Some (mkSyncClient ch)
    /\ cap ch = cap (FetchUnsafeBlock cl)
    /\ buf ch =
         buf (FetchUnsafeBlock cl) ++
         countFrom start
           (Nat.min (free (FetchUnsafeBlock cl)) (Z.to_nat (end_ - start + 1))).
Proof.
  intros Hdiv Hgap Hs Hlt He.
  unfold checkForGapInUnsafeQueue. rewrite Hdiv, Hgap.
  assert (Hsize : (U64.sub end_ start >? 0) = true).
  { apply Z.gtb_lt. unfold U64.sub, U64.wrap, U64.max, U64.modulus in *.
    rewrite Z.mod_small; lia. }
  rewrite Hsize. cbn [L2SyncCl set_L2SyncCl]. eexists. split; [ reflexivity | ].
  split; [ apply fetchLoop_cap | apply fetchLoop_sends; assumption ].
Qed.

(** A range of one block: when the pipeline
    reports the range [start, start], the size computed is 0, the guard
    [size > 0] fails, and the tick enqueues nothing: the backup client is
    left as it was, and the tick adds only the query to the record. *)
Theorem C3_single_block_gap_not_requested
  (now : Z) (cl : SyncClient) (s : Driver) (expected start : Z) :
  L2SyncCl s = Some cl ->
  U64.div (U64.sub (U64.wrap now) (rollup.L2Time (rollup.Genesis_ (config s))))
    (rollup.BlockTime (config s)) = Some expected ->
  GetUnsafeQueueGap (derivation s) expected = (start, start) ->
  let s' := fst (handle (AltSyncTick now) s) in
  L2SyncCl s' = Some cl
  /\ newCalls s s' = [CallGetUnsafeQueueGap expected start start]
  /\ status s' = status s.
Proof.
  intros Hcl Hdiv Hgap s'. subst s'. cbn [handle fst]. unfold onAltSyncTick.
  rewrite Hcl. unfold checkForGapInUnsafeQueue. rewrite Hdiv, Hgap.
  assert (Hsize : (U64.sub start start >? 0) = false).
  { unfold U64.sub, U64.wrap. rewrite Z.sub_diag. reflexivity. }
  rewrite Hsize. cbn.
  split; [ exact Hcl | ]. split; [ | reflexivity ].
  apply newCalls_app. reflexivity.
Qed.

(** C10: the expected block number is computed in [uint64].  When the wall
    clock is before the genesis time, the difference wraps to
    [now - L2Time + 2^64] and the pipeline is asked about that, divided by
    the block time; nothing fails.  When the range the pipeline answers has
    its end before its start, the size wraps to [end - start + 2^64],
    which is positive: the guard passes and the two log lines are written,
    though the loop then sends nothing. *)
Theorem C10_gap_check_wraps
  (now : Z) (cl : SyncClient) (s : Driver) :
  let L2Time := rollup.L2Time (rollup.Genesis_ (config s)) in
  let BlockTime := rollup.BlockTime (config s) in
  U64.InRange now -> U64.InRange L2Time -> now < L2Time -> 0 < BlockTime ->
  let expected := (now - L2Time + 2 ^ 64) / BlockTime in
  let start := fst (GetUnsafeQueueGap (derivation s) expected) in
  let end_ := snd (GetUnsafeQueueGap (derivation s) expected) in
  let s' := checkForGapInUnsafeQueue now cl s in
  U64.sub (U64.wrap now) L2Time = now - L2Time + 2 ^ 64
  /\ expected = U64.wrap (now - L2Time) / BlockTime
  /\ (2 ^ 64 - L2Time) / BlockTime <= expected
  /\ status s' = status s
  /\ (exists rest,
        newCalls s s' = CallGetUnsafeQueueGap expected start end_ :: rest)
  /\ (U64.InRange start -> U64.InRange end_ -> end_ < start ->
        U64.sub end_ start = end_ - start + 2 ^ 64
        /\ 0 < U64.sub end_ start
        /\ newCalls s s' =
             [CallGetUnsafeQueueGap expected start end_;
              Log LvlWarn
                "Gap in payload queue tip and expected unsafe chain detected";
              Log LvlInfo "Attempting to fetch missing payloads from backup RPC"]
        /\ L2SyncCl s' = Some cl).
Proof.
  intros L2Time BlockTime Hnow Hgen Hlt Hbt expected start end_ s'.
  unfold U64.InRange, U64.modulus in *.
  assert (Hdiff : U64.sub (U64.wrap now) L2Time = now - L2Time + 2 ^ 64).
  { unfold U64.sub, U64.wrap, U64.modulus.
    rewrite (Z.mod_small now) by lia.
    symmetry. apply Z.mod_unique with (q := -1); lia. }
  assert (Hwrap : U64.wrap (now - L2Time) = now - L2Time + 2 ^ 64).
  { unfold U64.wrap, U64.modulus.
    symmetry. apply Z.mod_unique with (q := -1); lia. }
  assert (Hdiv : U64.div (U64.sub (U64.wrap now) L2Time) BlockTime
                 = Some expected).
  { unfold U64.div. rewrite Hdiff.
    replace (BlockTime =? 0) with false by (symmetry; apply Z.eqb_neq; lia).
    reflexivity. }
  split; [ exact Hdiff | ].
  split; [ rewrite Hwrap; reflexivity | ].
  split; [ apply Z.div_le_mono; lia | ].
  subst s'. unfold checkForGapInUnsafeQueue.
  fold L2Time BlockTime. rewrite Hdiv.
  destruct (GetUnsafeQueueGap (derivation s) expected) as [st en] eqn:Hgap.
  cbn [fst snd] in start, end_. subst start end_.
  destruct (U64.sub en st >? 0) eqn:Hsize.
  - cbn. split; [ reflexivity | ].
    split.
    { eexists. apply newCalls_app. cbn. repeat rewrite <- app_assoc. reflexivity. }
    intros Hst Hen Hes.
    assert (Hsub : U64.sub en st = en - st + 2 ^ 64).
    { unfold U64.sub, U64.wrap, U64.modulus.
      symmetry. apply Z.mod_unique with (q := -1); lia. }
    split; [ exact Hsub | ]. split; [ lia | ].
    split.
    { apply newCalls_app. cbn. repeat rewrite <- app_assoc. reflexivity. }
    rewrite fetchLoop_unfold.
    replace (st <=? en) with false by (symmetry; apply Z.leb_gt; lia).
    destruct cl; reflexivity.
  - cbn. split; [ reflexivity | ].
    split.
    { eexists. apply newCalls_app. reflexivity. }
    intros Hst Hen Hes. exfalso.
    rewrite Z.gtb_ltb in Hsize. apply Z.ltb_ge in Hsize.
    unfold U64.sub, U64.wrap, U64.modulus in Hsize.
    rewrite <- (Z.mod_unique (en - st) (2 ^ 64) (-1) (en - st + 2 ^ 64))
      in Hsize by lia.
    lia.
Qed.

(** ** More on the backup-sync gap filler *)

(** Whatever the bounds, the loop only appends to the channel, and no more
    than there is room for. *)
Lemma fetchLoop_extends (room : nat) (b e : Z) (ch : Chan Z) :
  exists l,
    buf (fetchLoop room b e ch) = buf ch ++ l /\ (List.length l <= room)%nat.
Proof.
  revert b ch. induction room as [ | room IH]; intros b ch; cbn [fetchLoop].
  - exists []. rewrite app_nil_r. destruct (b <=? e); split; auto.
  - destruct (b <=? e).
    + destruct (IH (U64.add b 1) (mkChan (cap ch) (buf ch ++ [b])))
        as (l & Hl & Hlen).
      exists (b :: l). rewrite Hl. cbn [buf List.length].
      rewrite <- app_assoc. split; [ reflexivity | lia ].
    + exists []. rewrite app_nil_r. split; [ reflexivity | cbn; lia ].
Qed.

(** X2: a tick of the backup-sync ticker never takes a number out of the
    request channel and never puts in more than the channel holds: the
    client it leaves has the same capacity, the numbers that were queued
    come first and in their order, and the buffer stays within the
    capacity.  This holds for every wall clock, block time and answer of
    the pipeline, the panic on a zero block time included. *)
Theorem X2_gap_check_keeps_channel
  (now : Z) (cl : SyncClient) (s : Driver) :
  L2SyncCl s = Some cl ->
  (List.length (buf (FetchUnsafeBlock cl)) <= cap (FetchUnsafeBlock cl))%nat ->
  exists ch l,
    L2SyncCl (fst (handle (AltSyncTick now) s)) = Some (mkSyncClient ch)
    /\ cap ch = cap (FetchUnsafeBlock cl)
    /\ buf ch = buf (FetchUnsafeBlock cl) ++ l
    /\ (List.length (buf ch) <= cap ch)%nat.
Proof.
  intros Hcl Hlen. cbn [handle fst]. unfold onAltSyncTick. rewrite Hcl.
  assert (Hsame : exists ch l,
             Some cl = Some (mkSyncClient ch)
             /\ cap ch = cap (FetchUnsafeBlock cl)
             /\ buf ch = buf (FetchUnsafeBlock cl) ++ l
             /\ (List.length (buf ch) <= cap ch)%nat).
  { exists (FetchUnsafeBlock cl), []. rewrite app_nil_r.
    destruct cl; cbn; auto. }
  unfold checkForGapInUnsafeQueue.
  destruct (U64.div _ _) as [expected | ];
    [ | cbn; rewrite Hcl; exact Hsame ].
  destruct (GetUnsafeQueueGap (derivation s) expected) as [start end_].
  destruct (U64.sub end_ start >? 0);
    [ | cbn; rewrite Hcl; exact Hsame ].
  cbn [L2SyncCl set_L2SyncCl].
  destruct (fetchLoop_extends (free (FetchUnsafeBlock cl)) start end_
              (FetchUnsafeBlock cl)) as (l & Hl & Hroom).
  eexists. exists l. split; [ reflexivity | ].
  split; [ apply fetchLoop_cap | ]. split; [ exact Hl | ].
  rewrite Hl, fetchLoop_cap, length_app. unfold free in Hroom. lia.
Qed.

(** X1: for a range of two or more blocks that ends below the largest
    [uint64], the tick enqueues the numbers of the range in increasing
    order behind what is queued, as many as the channel has room for. *)
Theorem X1_gap_check_enqueues_range
  (now : Z) (cl : SyncClient) (s : Driver) (expected start end_ : Z) :
  L2SyncCl s = Some cl ->
  U64.div (U64.sub (U64.wrap now) (rollup.L2Time (rollup.Genesis_ (config s))))
    (rollup.BlockTime (config s)) = Some expected ->
  GetUnsafeQueueGap (derivation s) expected = (start, end_) ->
  0 <= start -> start < end_ -> end_ < U64.max ->
  exists ch,
    L2SyncCl (fst (handle (AltSyncTick now) s)) = Some (mkSyncClient ch)
    /\ buf ch =
         buf (FetchUnsafeBlock cl) ++
         countFrom start
           (Nat.min (free (FetchUnsafeBlock cl)) (Z.to_nat (end_ - start + 1))).
Proof.
  intros Hcl Hdiv Hgap Hs Hlt He. cbn [handle fst]. unfold onAltSyncTick.
  rewrite Hcl. unfold checkForGapInUnsafeQueue. rewrite Hdiv, Hgap.
  replace (U64.sub end_ start >? 0) with true.
  - cbn [L2SyncCl set_L2SyncCl]. eexists. split; [ reflexivity | ].
    apply fetchLoop_sends; assumption.
  - symmetry. apply Z.gtb_lt.
    unfold U64.sub, U64.wrap, U64.max, U64.modulus in *.
    rewrite Z.mod_small; lia.
Qed.

Lemma U64_add_range (b : Z) : 0 <= U64.add b 1 <= U64.max.
Proof.
  unfold U64.add, U64.wrap, U64.max, U64.modulus.
  pose proof (Z.mod_pos_bound (b + 1) (2 ^ 64) ltac:(lia)). lia.
Qed.

(** With the largest [uint64] as its bound the loop has no last turn: the
    counter wraps to 0 and only a full channel stops it. *)
Lemma fetchLoop_wraps (room : nat) (b : Z) (ch : Chan Z) :
  0 <= b <= U64.max ->
  buf (fetchLoop room b U64.max ch) = buf ch ++ countFromWrap b room.
Proof.
  revert b ch. induction room as [ | room IH]; intros b ch Hb;
    cbn [fetchLoop countFromWrap].
  - rewrite app_nil_r. destruct (b <=? U64.max); reflexivity.
  - replace (b <=? U64.max) with true by (symmetry; apply Z.leb_le; lia).
    rewrite IH by apply U64_add_range. cbn [buf].
    rewrite <- app_assoc. reflexivity.
Qed.

(** X4: when the range the pipeline answers ends at the largest [uint64],
    the bound [blockNumber <= end] never fails: the tick fills the channel
    to its capacity, and past the largest number it goes on with 0, 1, ... *)
Theorem X4_gap_check_bound_at_max
  (now : Z) (cl : SyncClient) (s : Driver) (expected start : Z) :
  L2SyncCl s = Some cl ->
  (List.length (buf (FetchUnsafeBlock cl)) <= cap (FetchUnsafeBlock cl))%nat ->
  U64.div (U64.sub (U64.wrap now) (rollup.L2Time (rollup.Genesis_ (config s))))
    (rollup.BlockTime (config s)) = Some expected ->
  GetUnsafeQueueGap (derivation s) expected = (start, U64.max) ->
  0 <= start < U64.max ->
  exists ch,
    L2SyncCl (fst (handle (AltSyncTick now) s)) = Some (mkSyncClient ch)
    /\ buf ch =
         buf (FetchUnsafeBlock cl) ++
         countFromWrap start (free (FetchUnsafeBlock cl))
    /\ List.length (buf ch) = cap (FetchUnsafeBlock cl).
Proof.
  intros Hcl Hlen Hdiv Hgap Hs. cbn [handle fst]. unfold onAltSyncTick.
  rewrite Hcl. unfold checkForGapInUnsafeQueue. rewrite Hdiv, Hgap.
  replace (U64.sub U64.max start >? 0) with true.
  - cbn [L2SyncCl set_L2SyncCl]. eexists. split; [ reflexivity | ].
    rewrite fetchLoop_wraps by lia. split; [ reflexivity | ].
    rewrite length_app.
    assert (Hn : forall n lo, List.length (countFromWrap lo n) = n).
    { induction n as [ | n IHn]; intros lo; cbn; [ | rewrite IHn ];
        reflexivity. }
    rewrite Hn. unfold free. lia.
  - symmetry. apply Z.gtb_lt.
    unfold U64.sub, U64.wrap, U64.max, U64.modulus in *.
    rewrite Z.mod_small; lia.
Qed.

(** X3: the gap check divides by the block time without testing it.  With
    a block time of 0 the division panics: the pipeline is not asked,
    nothing is enqueued or logged, and the goroutine of the loop is gone,
    so that no later event is received. *)
Theorem X3_gap_check_zero_block_time
  (now : Z) (cl : SyncClient) (s : Driver) :
  status s = Running ->
  L2SyncCl s = Some cl ->
  rollup.BlockTime (config s) = 0 ->
  let s' := fst (deliver (AltSyncTick now) s) in
  status s' = Panicked
  /\ calls s' = calls s
  /\ L2SyncCl s' = Some cl
  /\ derivation s' = derivation s
  /\ (forall evs, run evs s' = s').
Proof.
  intros Hrun Hcl Hbt s'.
  assert (Hs' : s' = set_status Panicked s).
  { subst s'. unfold deliver. rewrite Hrun. cbn [ready handle].
    unfold onAltSyncTick. rewrite Hcl.
    unfold checkForGapInUnsafeQueue, U64.div. rewrite Hbt. reflexivity. }
  rewrite Hs'. cbn.
  repeat (split; [ first [ reflexivity | assumption ] | ]).
  intros evs. apply run_stopped. cbn. discriminate.
Qed.

(** ** The proposer only acts when it may *)

Lemma proposerRuns_app (l1 l2 : list Call) :
  proposerRuns (l1 ++ l2) = (proposerRuns l1 + proposerRuns l2)%nat.
Proof.
  induction l1 as [ | c l1 IH]; cbn; [ reflexivity | ].
  destruct c; cbn; rewrite IH; reflexivity.
Qed.

(** The three ways a turn of the loop can go. *)
Lemma deliver_cases (ev : Event) (s : Driver) :
  fst (deliver ev s) = s
  \/ (status s = Running /\ ev = TimerExpired /\ fst (deliver ev s) = expire s)
  \/ (status s = Running /\ ready ev s = true /\ ev <> TimerExpired
      /\ ((status (fst (handle ev s)) = Running
           /\ fst (deliver ev s) = preSelect (fst (handle ev s)))
          \/ (status (fst (handle ev s)) <> Running
              /\ fst (deliver ev s) = fst (handle ev s)))).
Proof.
  destruct (status s) eqn:Hrun;
    [ | left; rewrite deliver_stopped by congruence; reflexivity .. ].
  destruct (ready ev s) eqn:Hready;
    [ | left; rewrite deliver_skipped by assumption; reflexivity ].
  assert (Hev : ev = TimerExpired \/ ev <> TimerExpired)
    by (destruct ev; (left; reflexivity) || (right; discriminate)).
  destruct Hev as [-> | Hev].
  - right; left. unfold deliver. rewrite Hrun, Hready. auto.
  - right; right. rewrite deliver_received by assumption. cbn [fst].
    repeat (split; [ assumption || reflexivity | ]).
    destruct (status (fst (handle ev s))); [ left | right | right ];
      split; congruence || reflexivity.
Qed.

(** No case writes the rollup configuration or the settings of the driver
    other than [ProposerStopped]. *)
Lemma handle_settings (ev : Event) (s : Driver) :
  config (fst (handle ev s)) = config s
  /\ ProposerEnabled (driverConfig (fst (handle ev s)))
     = ProposerEnabled (driverConfig s)
  /\ SyncerConfDepth (driverConfig (fst (handle ev s)))
     = SyncerConfDepth (driverConfig s)
  /\ ProposerConfDepth (driverConfig (fst (handle ev s)))
     = ProposerConfDepth (driverConfig s).
Proof.
  destruct ev; cbn [handle fst].
  all: run_cases.
  all: cbn; auto.
Qed.

Lemma handle_ProposerStopped (ev : Event) (s : Driver) :
  isStartProposerReq ev = false -> isStopProposerReq ev = false ->
  ProposerStopped (driverConfig (fst (handle ev s)))
  = ProposerStopped (driverConfig s).
Proof.
  intros Hstart Hstop.
  destruct ev; try discriminate; cbn [handle fst].
  all: run_cases.
  all: cbn; auto.
Qed.

Lemma handle_stays_stopped (ev : Event) (s : Driver) :
  isStartProposerReq ev = false ->
  ProposerStopped (driverConfig s) = true ->
  ProposerStopped (driverConfig (fst (handle ev s))) = true.
Proof.
  intros Hstart Hst.
  destruct (isStopProposerReq ev) eqn:Hstop.
  - destruct ev; try discriminate. cbn [handle]. unfold onStopProposer.
    rewrite Hst. exact Hst.
  - rewrite handle_ProposerStopped; assumption.
Qed.

(** Only the proposer case calls [RunNextProposerAction]. *)
Lemma handle_no_build (ev : Event) (s : Driver) :
  ev <> ProposerTick ->
  proposerRuns (calls (fst (handle ev s))) = proposerRuns (calls s).
Proof.
  intros Hev.
  destruct ev; try congruence; cbn [handle fst].
  all: run_cases.
  all: cbn; repeat rewrite proposerRuns_app; cbn; lia.
Qed.

Lemma preSelect_proposerRuns (s : Driver) :
  proposerRuns (calls (preSelect s)) = proposerRuns (calls s).
Proof.
  destruct (preSelect_calls s) as [-> | [delay ->]]; [ reflexivity | ].
  rewrite proposerRuns_app. cbn. lia.
Qed.

Lemma preSelect_ineligible (s : Driver) :
  eligible s = false -> preSelect s = set_proposerCh false s.
Proof.
  unfold eligible, preSelect. intros ->. reflexivity.
Qed.

(** While the proposer channel is nil, a turn of the loop builds nothing. *)
Lemma deliver_quiet_no_build (ev : Event) (s : Driver) :
  Quiet s ->
  proposerRuns (calls (fst (deliver ev s))) = proposerRuns (calls s).
Proof.
  intros Hq.
  destruct (deliver_cases ev s)
    as [-> | [(_ & _ & ->) | (Hrun & Hready & Hev & Hnext)]];
    [ reflexivity | reflexivity | ].
  assert (Htick : ev <> ProposerTick).
  { intros ->. cbn in Hready. rewrite (Hq Hrun) in Hready. discriminate. }
  destruct Hnext as [[_ ->] | [_ ->]].
  - rewrite preSelect_proposerRuns. apply handle_no_build, Htick.
  - apply handle_no_build, Htick.
Qed.

(** A turn whose case leaves the proposer not eligible ends with the
    proposer channel nil. *)
Lemma deliver_keeps_quiet (ev : Event) (s : Driver) :
  Quiet s ->
  (status s = Running -> ready ev s = true ->
   eligible (fst (handle ev s)) = false) ->
  Quiet (fst (deliver ev s)).
Proof.
  intros Hq Hel.
  destruct (deliver_cases ev s)
    as [-> | [(_ & _ & ->) | (Hrun & Hready & Hev & Hnext)]].
  - exact Hq.
  - exact Hq.
  - destruct Hnext as [[_ ->] | [Hst ->]].
    + rewrite preSelect_ineligible by (apply Hel; assumption).
      intros _. reflexivity.
    + intros H. contradiction.
Qed.

Lemma eligible_disabled (s : Driver) :
  ProposerEnabled (driverConfig s) = false -> eligible s = false.
Proof. unfold eligible. intros ->. reflexivity. Qed.

Lemma eligible_stopped (s : Driver) :
  ProposerStopped (driverConfig s) = true -> eligible s = false.
Proof.
  unfold eligible. intros ->.
  destruct (ProposerEnabled (driverConfig s)); reflexivity.
Qed.

Lemma deliver_settings (ev : Event) (s : Driver) :
  config (fst (deliver ev s)) = config s
  /\ ProposerEnabled (driverConfig (fst (deliver ev s)))
     = ProposerEnabled (driverConfig s)
  /\ SyncerConfDepth (driverConfig (fst (deliver ev s)))
     = SyncerConfDepth (driverConfig s)
  /\ ProposerConfDepth (driverConfig (fst (deliver ev s)))
     = ProposerConfDepth (driverConfig s).
Proof.
  destruct (deliver_cases ev s)
    as [-> | [(_ & _ & ->) | (Hrun & Hready & Hev & Hnext)]];
    [ auto | cbn; auto | ].
  pose proof (deliver_core ev s Hrun Hready) as Hc.
  rewrite (same_config _ _ Hc), (same_driverConfig _ _ Hc).
  apply handle_settings.
Qed.

Lemma deliver_ProposerStopped (ev : Event) (s : Driver) :
  isStartProposerReq ev = false -> isStopProposerReq ev = false ->
  ProposerStopped (driverConfig (fst (deliver ev s)))
  = ProposerStopped (driverConfig s).
Proof.
  intros Hstart Hstop.
  destruct (deliver_cases ev s)
    as [-> | [(_ & _ & ->) | (Hrun & Hready & Hev & Hnext)]];
    [ auto | cbn; auto | ].
  rewrite (same_driverConfig _ _ (deliver_core ev s Hrun Hready)).
  apply handle_ProposerStopped; assumption.
Qed.

(** X11: over any run of the loop the rollup configuration, [ProposerEnabled]
    and the two confirmation depths are the ones the driver was made with,
    and [ProposerStopped] changes in no turn but those of a start or stop
    request. *)
Theorem X11_settings_are_immutable (evs : list Event) (s : Driver) :
  config (run evs s) = config s
  /\ ProposerEnabled (driverConfig (run evs s)) = ProposerEnabled (driverConfig s)
  /\ SyncerConfDepth (driverConfig (run evs s)) = SyncerConfDepth (driverConfig s)
  /\ ProposerConfDepth (driverConfig (run evs s))
     = ProposerConfDepth (driverConfig s)
  /\ (forallb (fun ev => negb (isStartProposerReq ev || isStopProposerReq ev)) evs
      = true ->
      ProposerStopped (driverConfig (run evs s))
      = ProposerStopped (driverConfig s)).
Proof.
  revert s. induction evs as [ | ev evs IH]; intros s; cbn [run forallb].
  - auto.
  - destruct (IH (fst (deliver ev s))) as (H1 & H2 & H3 & H4 & H5).
    destruct (deliver_settings ev s) as (D1 & D2 & D3 & D4).
    rewrite H1, H2, H3, H4, D1, D2, D3, D4.
    repeat (split; [ reflexivity | ]).
    intros Hall. apply andb_prop in Hall. destruct Hall as [Hev Hall].
    apply negb_true_iff, orb_false_elim in Hev. destruct Hev as [Hs1 Hs2].
    rewrite (H5 Hall). apply deliver_ProposerStopped; assumption.
Qed.

Lemma run_disabled_no_build (evs : list Event) (s : Driver) :
  ProposerEnabled (driverConfig s) = false -> Quiet s ->
  proposerRuns (calls (run evs s)) = proposerRuns (calls s).
Proof.
  revert s. induction evs as [ | ev evs IH]; intros s Hen Hq; cbn [run].
  - reflexivity.
  - rewrite IH.
    + apply deliver_quiet_no_build, Hq.
    + destruct (deliver_settings ev s) as (_ & -> & _). exact Hen.
    + apply deliver_keeps_quiet; [ exact Hq | ].
      intros _ _. apply eligible_disabled.
      destruct (handle_settings ev s) as (_ & -> & _). exact Hen.
Qed.

(** X5: a driver made with [ProposerEnabled] false never calls
    [RunNextProposerAction], whatever events its loop receives: timer ticks,
    L1 signals, payloads, steps, and start requests that reach the loop
    without passing the check of the public [StartProposer]. *)
Theorem X5_disabled_proposer_never_builds
  (l1 : L1State) (d : Pipeline) (cfg : rollup.Config) (dc : DriverConfig)
  (cl : option SyncClient) (p : Proposer) (n : option Network) (b : Backoff)
  (evs : list Event) :
  ProposerEnabled dc = false ->
  proposerRuns (calls (run evs (eventLoop_enter l1 d cfg dc cl p n b))) = 0%nat.
Proof.
  intros Hen.
  set (s0 := reqStep
               (mkDriver l1 d cfg dc cl p n (mkChan 1%nat []) None b 0
                  (mkTimer (Some 0) false) false Running
                  [Log LvlInfo "State loop started"])).
  assert (Hel : eligible s0 = false).
  { apply eligible_disabled. unfold s0, reqStep, step, trySend. cbn.
    exact Hen. }
  assert (Hs : eventLoop_enter l1 d cfg dc cl p n b = set_proposerCh false s0).
  { unfold eventLoop_enter. fold s0. apply preSelect_ineligible, Hel. }
  rewrite Hs, run_disabled_no_build.
  - unfold s0, reqStep, step, trySend. cbn. reflexivity.
  - unfold s0, reqStep, step, trySend. cbn. exact Hen.
  - intros _. reflexivity.
Qed.

Lemma run_stopped_no_build (evs : list Event) (s : Driver) :
  ProposerStopped (driverConfig s) = true -> Quiet s ->
  forallb (fun ev => negb (isStartProposerReq ev)) evs = true ->
  proposerRuns (calls (run evs s)) = proposerRuns (calls s)
  /\ ProposerStopped (driverConfig (run evs s)) = true.
Proof.
  revert s. induction evs as [ | ev evs IH]; intros s Hst Hq Hall;
    cbn [run forallb] in *.
  - auto.
  - apply andb_prop in Hall. destruct Hall as [Hev Hall].
    apply negb_true_iff in Hev.
    assert (Hh : status s = Running -> ready ev s = true ->
                 ProposerStopped (driverConfig (fst (handle ev s))) = true)
      by (intros _ _; apply handle_stays_stopped; assumption).
    assert (Hst' : ProposerStopped (driverConfig (fst (deliver ev s))) = true).
    { destruct (deliver_cases ev s)
        as [-> | [(_ & _ & ->) | (Hrun & Hready & _ & _)]];
        [ exact Hst | exact Hst | ].
      rewrite (same_driverConfig _ _ (deliver_core ev s Hrun Hready)).
      apply Hh; assumption. }
    destruct (IH (fst (deliver ev s)) Hst') as [Hruns Hfinal].
    + apply deliver_keeps_quiet; [ exact Hq | ].
      intros Hrun Hready. apply eligible_stopped, Hh; assumption.
    + exact Hall.
    + rewrite Hruns. split; [ apply deliver_quiet_no_build, Hq | exact Hfinal ].
Qed.

(** X6: once [StopProposer] has answered without error, the proposer
    builds no block until a start request arrives: over any later events
    that contain no start request, [RunNextProposerAction] is not called
    and [ProposerStopped] stays set. *)
Theorem X6_stopped_proposer_never_builds (s : Driver) (evs : list Event) :
  status s = Running ->
  ProposerEnabled (driverConfig s) = true ->
  ProposerStopped (driverConfig s) = false ->
  forallb (fun ev => negb (isStartProposerReq ev)) evs = true ->
  let s1 := fst (StopProposer s) in
  snd (snd (StopProposer s)) = None
  /\ proposerRuns (calls (run evs s1)) = proposerRuns (calls s)
  /\ ProposerStopped (driverConfig (run evs s1)) = true.
Proof.
  intros Hrun Hen Hst Hall s1.
  set (stopped :=
         set_ProposerStopped true (log LvlWarn "Proposer has been stopped" s)).
  assert (Hstop : StopProposer s =
                  (set_proposerCh false stopped,
                   (L2Hash (UnsafeL2Head (derivation s)), None))).
  { unfold StopProposer, deliver. rewrite Hen, Hrun. cbn [negb ready handle].
    unfold onStopProposer. rewrite Hst. fold stopped.
    replace (status stopped) with Running by (symmetry; exact Hrun).
    rewrite preSelect_ineligible by (apply eligible_stopped; reflexivity).
    reflexivity. }
  subst s1. rewrite Hstop. cbn [fst snd].
  split; [ reflexivity | ].
  destruct (run_stopped_no_build evs (set_proposerCh false stopped))
    as [Hruns Hfinal];
    [ reflexivity | intros _; reflexivity | exact Hall | ].
  split; [ | exact Hfinal ].
  rewrite Hruns. unfold stopped. cbn. rewrite proposerRuns_app. cbn. lia.
Qed.

Lemma StartProposer_accepts (s : Driver) :
  status s = Running ->
  ProposerEnabled (driverConfig s) = true ->
  ProposerStopped (driverConfig s) = true ->
  StartProposer (L2Hash (UnsafeL2Head (derivation s))) s =
    (preSelect
       (planProposerAction
          (set_ProposerStopped false
             (log LvlInfo "Proposer has been started" s))),
     None).
Proof.
  intros Hrun Hen Hst. unfold StartProposer, deliver.
  rewrite Hen, Hrun. cbn [negb ready handle]. unfold onStartProposer.
  rewrite Hst, Z.eqb_refl. cbn [negb].
  rewrite (same_status _ _ (planProposerAction_core _)).
  change (status (set_ProposerStopped false
                    (log LvlInfo "Proposer has been started" s)))
    with (status s).
  rewrite Hrun. reflexivity.
Qed.

(** X7: stop and start make a round trip.  The hash that [StopProposer]
    answers is accepted by the [StartProposer] that follows it, which
    clears [ProposerStopped] again. *)
Theorem X7_stop_then_start_round_trip (s : Driver) :
  status s = Running ->
  ProposerEnabled (driverConfig s) = true ->
  ProposerStopped (driverConfig s) = false ->
  let stopped := fst (StopProposer s) in
  let h := fst (snd (StopProposer s)) in
  snd (snd (StopProposer s)) = None
  /\ ProposerStopped (driverConfig stopped) = true
  /\ snd (StartProposer h stopped) = None
  /\ ProposerStopped (driverConfig (fst (StartProposer h stopped))) = false.
Proof.
  intros Hrun Hen Hst stopped h.
  set (s1 :=
         set_ProposerStopped true (log LvlWarn "Proposer has been stopped" s)).
  assert (Hstop : StopProposer s =
                  (preSelect s1, (L2Hash (UnsafeL2Head (derivation s)), None))).
  { unfold StopProposer, deliver. rewrite Hen, Hrun. cbn [negb ready handle].
    unfold onStopProposer. rewrite Hst. fold s1.
    replace (status s1) with Running by (symmetry; exact Hrun).
    reflexivity. }
  subst stopped h. rewrite Hstop. cbn [fst snd].
  pose proof (preSelect_core s1) as Hc.
  assert (Hd : derivation (preSelect s1) = derivation s)
    by (rewrite (same_derivation _ _ Hc); reflexivity).
  assert (Hrun2 : status (preSelect s1) = Running)
    by (rewrite (same_status _ _ Hc); exact Hrun).
  assert (Hen2 : ProposerEnabled (driverConfig (preSelect s1)) = true)
    by (rewrite (same_driverConfig _ _ Hc); exact Hen).
  assert (Hst2 : ProposerStopped (driverConfig (preSelect s1)) = true)
    by (rewrite (same_driverConfig _ _ Hc); reflexivity).
  split; [ reflexivity | ]. split; [ exact Hst2 | ].
  rewrite <- Hd, (StartProposer_accepts _ Hrun2 Hen2 Hst2). cbn [fst snd].
  split; [ reflexivity | ].
  rewrite (same_driverConfig _ _ (preSelect_core _)).
  rewrite (same_driverConfig _ _ (planProposerAction_core _)). reflexivity.
Qed.

(** X12: one expiry of the proposer timer gives one build.  After the
    proposer case has been run (without a critical error), the tick is
    consumed and the case cannot be run again before the timer expires
    again.  The case leaves the proposer channel on the timer and the timer
    armed with the delay that [PlanNextProposerAction] answers on the
    proposer and pipeline as the build left them; at the next select the
    timer holds that delay, or the one of the re-planning at the head of
    the loop. *)
Theorem X12_one_build_per_expiry (s : Driver) :
  status s = Running ->
  ready ProposerTick s = true ->
  snd (RunNextProposerAction (proposer s) (derivation s)) = None ->
  let s' := fst (deliver ProposerTick s) in
  let built := RunNextProposerAction (proposer s) (derivation s) in
  let p := fst (fst (fst built)) in
  let d := snd (fst (fst built)) in
  let plan1 := PlanNextProposerAction p d in
  let plan2 := PlanNextProposerAction (fst plan1) d in
  status s' = Running
  /\ ready ProposerTick s' = false
  /\ ticked (proposerTimer s') = false
  /\ (exists delay, pending (proposerTimer s') = Some delay)
  /\ proposerRuns (calls s') = S (proposerRuns (calls s))
  /\ proposerCh (fst (handle ProposerTick s)) = true
  /\ proposerTimer (fst (handle ProposerTick s)) = mkTimer (Some (snd plan1)) false
  /\ (exists l,
        calls (fst (handle ProposerTick s))
        = l ++ [CallPlanNextProposerAction (snd plan1)])
  /\ (proposerTimer s' = mkTimer (Some (snd plan1)) false
      \/ proposerTimer s' = mkTimer (Some (snd plan2)) false).
Proof.
  intros Hrun Hready Herr s' built p d plan1 plan2.
  assert (Hh : exists x,
             fst (handle ProposerTick s) = planProposerAction x
             /\ status x = Running
             /\ proposerRuns (calls x) = S (proposerRuns (calls s))
             /\ proposer x = p /\ derivation x = d).
  { subst plan2 plan1 p d built.
    cbn [handle fst]. unfold onProposerTick. cbn.
    destruct (RunNextProposerAction (proposer s) (derivation s))
      as [[[p0 d0] payload] err].
    cbn [fst snd] in Herr |- *. subst err.
    eexists. split; [ reflexivity | ].
    destruct (network s) as [n | ]; [ destruct payload as [pl | ] | ].
    - cbn. destruct (PublishL2Payload n pl) as [n' [e | ]]; cbn;
        repeat rewrite proposerRuns_app; cbn;
        (split; [ assumption | split; [ lia | split; reflexivity ] ]).
    - cbn. rewrite proposerRuns_app. cbn.
      split; [ assumption | split; [ lia | split; reflexivity ] ].
    - cbn. rewrite proposerRuns_app. cbn.
      split; [ assumption | split; [ lia | split; reflexivity ] ]. }
  destruct Hh as (x & Hx & Hxrun & Hxruns & Hxp & Hxd).
  pose proof (planProposerAction_core x) as Hc.
  destruct (planProposerAction_effect x) as (Hp1 & Hch1 & Ht1 & Hcalls1).
  rewrite Hxp, Hxd in Hp1, Ht1, Hcalls1.
  fold plan1 in Hp1, Ht1, Hcalls1.
  assert (Hs' : s' = preSelect (planProposerAction x)).
  { subst s'. rewrite deliver_received by (assumption || discriminate).
    cbn [fst]. rewrite Hx, (same_status _ _ Hc), Hxrun. reflexivity. }
  assert (Htimer : proposerTimer s' = mkTimer (Some (snd plan1)) false
                   \/ proposerTimer s' = mkTimer (Some (snd plan2)) false).
  { rewrite Hs'. unfold preSelect.
    destruct (_ && _ && _ && _).
    - destruct (negb _).
      + right.
        destruct (planProposerAction_effect (planProposerAction x))
          as (_ & _ & Ht2 & _).
        rewrite Ht2, Hp1, (same_derivation _ _ Hc), Hxd. reflexivity.
      + left. exact Ht1.
    - left. cbn. exact Ht1. }
  assert (Htick : ticked (proposerTimer s') = false)
    by (destruct Htimer as [-> | ->]; reflexivity).
  split.
  { rewrite Hs', (same_status _ _ (preSelect_core _)), (same_status _ _ Hc).
    exact Hxrun. }
  split; [ cbn [ready]; rewrite Htick; apply andb_false_r | ].
  split; [ exact Htick | ].
  split; [ destruct Htimer as [-> | ->]; eexists; reflexivity | ].
  split.
  { rewrite Hs', preSelect_proposerRuns, planProposerAction_calls,
      proposerRuns_app.
    cbn. lia. }
  rewrite Hx.
  split; [ exact Hch1 | ]. split; [ exact Ht1 | ].
  split; [ eexists; exact Hcalls1 | exact Htimer ].
Qed.

(** ** Every step that can be followed by another is *)

Lemma ready_core (a b : Driver) :
  SameCore a b ->
  ready StepReq b = ready StepReq a /\ ready DelayedStep b = ready DelayedStep a.
Proof.
  intros Hc. cbn [ready].
  rewrite (same_stepReqCh _ _ Hc), (same_delayedStepReq _ _ Hc). auto.
Qed.

(** Behind an emptied capacity-1 channel, a step request is never lost: it
    is in the channel, or a timer will make it. *)
Lemma reqStep_requests (x : Driver) :
  cap (stepReqCh x) = 1%nat -> buf (stepReqCh x) = [] ->
  status (reqStep x) = status x
  /\ (ready StepReq (reqStep x) = true \/ ready DelayedStep (reqStep x) = true).
Proof.
  intros Hcap Hbuf. unfold reqStep.
  destruct (stepAttempts x >? 0).
  - destruct (delayedStepReq x) as [d | ] eqn:Hd.
    + cbn. rewrite Hd. auto.
    + destruct (BackoffDuration (bOffStrategy x) (stepAttempts x)).
      cbn. auto.
  - unfold step, trySend. rewrite Hbuf, Hcap. cbn. auto.
Qed.

(** The step case: the receive, the metric, the log line and the call of
    [Step], up to the point where the error is read. *)
Lemma onStepReq_calls (s : Driver) :
  exists l,
    calls (fst (handle StepReq s)) =
      calls s ++ SetDerivationIdle false
              :: Log LvlDebug "Derivation process step"
              :: CallStep (snd (Step (derivation s))) :: l.
Proof.
  cbn [handle fst]. unfold onStepReq. cbn.
  destruct (Step (derivation s)) as [d err]. cbn [snd].
  destruct (classify err); unfold reqStep, step.
  all: repeat (cbn; try break_match).
  all: cbn; repeat rewrite <- app_assoc; cbn; eexists; reflexivity.
Qed.

(** In the branches of the step case that go on, the case ends with
    [reqStep], on a state whose step channel is the one the receive left. *)
Lemma onStepReq_continues (s : Driver) :
  classify (snd (Step (derivation s))) <> StepEOF ->
  classify (snd (Step (derivation s))) <> StepReset ->
  classify (snd (Step (derivation s))) <> StepCritical ->
  exists x,
    fst (handle StepReq s) = reqStep x
    /\ status x = status s
    /\ stepReqCh x = mkChan (cap (stepReqCh s)) (tl (buf (stepReqCh s))).
Proof.
  intros Heof Hreset Hcrit.
  cbn [handle fst]. unfold onStepReq.
  change (derivation
            (log LvlDebug "Derivation process step"
               (record (SetDerivationIdle false)
                  (set_stepReqCh
                     (mkChan (cap (stepReqCh s)) (tl (buf (stepReqCh s)))) s))))
    with (derivation s).
  destruct (Step (derivation s)) as [d err]. cbn [snd] in *.
  destruct (classify err); try congruence; cbv beta iota zeta.
  all: eexists; split; [ reflexivity | split; reflexivity ].
Qed.

(** X8: the derivation does not stall.  After a step that returned
    success, [NotEnoughData], a temporary error or an unclassified error,
    the loop is running and the next step is on its way: a request sits in
    the step channel or a delayed step is pending. *)
Theorem X8_step_is_followed_by_a_request (s : Driver) :
  status s = Running -> ready StepReq s = true -> StepChanInv s ->
  classify (snd (Step (derivation s))) <> StepEOF ->
  classify (snd (Step (derivation s))) <> StepReset ->
  classify (snd (Step (derivation s))) <> StepCritical ->
  let s' := fst (deliver StepReq s) in
  status s' = Running
  /\ (ready StepReq s' = true \/ ready DelayedStep s' = true).
Proof.
  intros Hrun Hready [Hcap Hlen] Heof Hreset Hcrit s'.
  pose proof (deliver_core StepReq s Hrun Hready) as Hc. fold s' in Hc.
  destruct (ready_core _ _ Hc) as [-> ->]. rewrite (same_status _ _ Hc).
  clear Hc s'.
  assert (Htl : tl (buf (stepReqCh s)) = [])
    by (destruct (buf (stepReqCh s)) as [ | u [ | u' l]];
        cbn in *; reflexivity || lia).
  destruct (onStepReq_continues s Heof Hreset Hcrit) as (x & -> & Hst & Hch).
  destruct (reqStep_requests x) as [Hst' Hnext].
  - rewrite Hch. exact Hcap.
  - rewrite Hch. exact Htl.
  - rewrite Hst', Hst. split; [ exact Hrun | exact Hnext ].
Qed.

(** X9: a failed step is retried after the backoff of its attempt.  When
    [Step] returned a temporary or an unclassified error, the counter is one
    more than before; if no delayed step was pending, one is scheduled with
    the delay the strategy gives for the new count, and no immediate request
    is made; if one was pending, it stays the only one and the strategy is
    not asked. *)
Theorem X9_failed_step_schedules_backoff (s : Driver) :
  status s = Running -> ready StepReq s = true ->
  classify (snd (Step (derivation s))) = StepTemporary
  \/ classify (snd (Step (derivation s))) = StepOther ->
  0 <= stepAttempts s < 2 ^ 63 - 1 ->
  let s' := fst (deliver StepReq s) in
  let n := stepAttempts s + 1 in
  stepAttempts s' = n
  /\ stepReqCh s' = mkChan (cap (stepReqCh s)) (tl (buf (stepReqCh s)))
  /\ (delayedStepReq s = None ->
      delayedStepReq s' = Some (snd (BackoffDuration (bOffStrategy s) n))
      /\ bOffStrategy s' = fst (BackoffDuration (bOffStrategy s) n))
  /\ (forall d, delayedStepReq s = Some d ->
      delayedStepReq s' = Some d /\ bOffStrategy s' = bOffStrategy s).
Proof.
  intros Hrun Hready Hcl Hrange s' n.
  pose proof (deliver_core StepReq s Hrun Hready) as Hc. fold s' in Hc.
  rewrite (same_stepAttempts _ _ Hc), (same_stepReqCh _ _ Hc),
    (same_delayedStepReq _ _ Hc), (same_bOffStrategy _ _ Hc).
  clear Hc s'.
  assert (Hadd : Int.add (stepAttempts s) 1 = n).
  { unfold Int.add, Int.wrap, n.
    rewrite Z.mod_small; lia. }
  assert (Hpos : (n >? 0) = true) by (apply Z.gtb_lt; lia).
  cbn [handle fst]. unfold onStepReq. cbn.
  destruct (Step (derivation s)) as [d err]. cbn [snd] in *.
  rewrite Hadd.
  destruct Hcl as [-> | ->]; unfold reqStep; cbn; rewrite Hpos.
  all: destruct (delayedStepReq s) as [d0 | ] eqn:Hd.
  all: try (destruct (BackoffDuration (bOffStrategy s) n) as [b delay]).
  all: cbn; rewrite ?Hd.
  all: split; [ reflexivity | split; [ reflexivity | split ] ].
  all: try (intros Hnone; first [ discriminate Hnone | split; reflexivity ]).
  all: intros d1 Hd1; first [ discriminate Hd1 | injection Hd1 as <-; auto ].
Qed.

(** X10: a critical error of [Step] ends the loop.  After the call the
    case only logs the error: it does not reset the pipeline, requests no
    step and creates no timer, and the loop receives nothing afterwards. *)
Theorem X10_critical_step_error_terminates (s : Driver) :
  status s = Running -> ready StepReq s = true ->
  classify (snd (Step (derivation s))) = StepCritical ->
  let s' := fst (deliver StepReq s) in
  status s' = Returned
  /\ derivation s' = fst (Step (derivation s))
  /\ delayedStepReq s' = delayedStepReq s
  /\ stepReqCh s' = mkChan (cap (stepReqCh s)) (tl (buf (stepReqCh s)))
  /\ newCalls s s' =
       [SetDerivationIdle false;
        Log LvlDebug "Derivation process step";
        CallStep (snd (Step (derivation s)));
        Log LvlError "Derivation process critical error"]
  /\ (forall evs, run evs s' = s').
Proof.
  intros Hrun Hready Hcl s'.
  set (polled :=
         record (CallStep (snd (Step (derivation s))))
           (set_derivation (fst (Step (derivation s)))
              (log LvlDebug "Derivation process step"
                 (record (SetDerivationIdle false)
                    (set_stepReqCh
                       (mkChan (cap (stepReqCh s)) (tl (buf (stepReqCh s))))
                       s))))).
  assert (Hh : fst (handle StepReq s) =
               set_status Returned
                 (log LvlError "Derivation process critical error"
                    (set_stepAttempts (Int.add (stepAttempts s) 1) polled))).
  { subst polled. cbn [handle fst]. unfold onStepReq.
    change (derivation
              (log LvlDebug "Derivation process step"
                 (record (SetDerivationIdle false)
                    (set_stepReqCh
                       (mkChan (cap (stepReqCh s)) (tl (buf (stepReqCh s))))
                       s))))
      with (derivation s).
    destruct (Step (derivation s)) as [d err]. cbn [fst snd] in Hcl |- *.
    rewrite Hcl. reflexivity. }
  assert (Hs' : s' = set_status Returned
                       (log LvlError "Derivation process critical error"
                          (set_stepAttempts (Int.add (stepAttempts s) 1) polled))).
  { subst s'. rewrite deliver_received by (assumption || discriminate).
    cbn [fst]. rewrite Hh. reflexivity. }
  rewrite Hs'.
  split; [ reflexivity | ]. split; [ reflexivity | ].
  split; [ reflexivity | ]. split; [ reflexivity | ].
  split.
  - apply newCalls_app. subst polled. cbn. repeat rewrite <- app_assoc.
    reflexivity.
  - intros evs. apply run_stopped. cbn. discriminate.
Qed.

(** X13: an unsafe payload received before a step is seen by that step.
    The payload case hands the payload to the pipeline and leaves a step on
    its way; the step case, when it runs next, calls [Step] on the pipeline
    that holds the payload. *)
Theorem X13_payload_is_visible_to_next_step
  (payload : ExecutionPayload) (s : Driver) :
  status s = Running -> StepChanInv s ->
  let s1 := fst (deliver (UnsafePayload payload) s) in
  status s1 = Running
  /\ derivation s1 = AddUnsafePayload payload (derivation s)
  /\ (ready StepReq s1 = true \/ ready DelayedStep s1 = true)
  /\ (ready StepReq s1 = true ->
      In (CallStep (snd (Step (AddUnsafePayload payload (derivation s)))))
         (newCalls s1 (fst (deliver StepReq s1)))).
Proof.
  intros Hrun [Hcap Hlen] s1.
  pose proof (deliver_core (UnsafePayload payload) s Hrun eq_refl) as Hc.
  fold s1 in Hc.
  assert (Hfacts : status s1 = Running
                   /\ derivation s1 = AddUnsafePayload payload (derivation s)
                   /\ (ready StepReq s1 = true \/ ready DelayedStep s1 = true)).
  { destruct (ready_core _ _ Hc) as [-> ->].
    rewrite (same_status _ _ Hc), (same_derivation _ _ Hc). clear Hc s1.
    cbn [handle fst]. unfold onUnsafePayload, reqStep, step, trySend. cbn.
    destruct (stepAttempts s >? 0).
    - destruct (delayedStepReq s) as [d0 | ] eqn:Hd.
      + cbn. rewrite Hd. auto.
      + destruct (BackoffDuration (bOffStrategy s) (stepAttempts s)). cbn. auto.
    - rewrite Hcap.
      destruct (buf (stepReqCh s)) as [ | u [ | u' l]] eqn:Hb;
        cbn in *; rewrite ?Hb; cbn; auto; lia. }
  destruct Hfacts as (Hrun1 & Hd1 & Hnext).
  repeat (split; [ assumption | ]).
  intros Hready1.
  destruct (onStepReq_calls s1) as [l Hl].
  destruct (deliver_newCalls StepReq s1 Hrun1 Hready1) as (l2 & -> & _).
  rewrite (newCalls_app _ _ _ Hl), <- Hd1.
  apply in_or_app. left. cbn. auto.
Qed.

(** X15: [Start] resets the pipeline and spawns the loop, which comes to
    its first select with one step request in the channel, no failed attempt
    counted and no timer pending; the first step it takes is a step of the
    reset pipeline. *)
Theorem X15_Start_bootstraps_a_step
  (l1 : L1State) (d : Pipeline) (cfg : rollup.Config) (dc : DriverConfig)
  (cl : option SyncClient) (p : Proposer) (n : option Network) (b : Backoff) :
  let s := Start l1 d cfg dc cl p n b in
  status s = Running
  /\ derivation s = Reset d
  /\ stepReqCh s = mkChan 1%nat [tt]
  /\ stepAttempts s = 0
  /\ delayedStepReq s = None
  /\ In (CallStep (snd (Step (Reset d))))
        (newCalls s (fst (deliver StepReq s))).
Proof.
  cbn zeta. unfold Start, eventLoop_enter.
  set (s0 := reqStep _).
  pose proof (preSelect_core s0) as Hc.
  assert (H0 : status s0 = Running /\ derivation s0 = Reset d
               /\ stepReqCh s0 = mkChan 1%nat [tt]
               /\ stepAttempts s0 = 0 /\ delayedStepReq s0 = None)
    by (unfold s0, reqStep, step, trySend; cbn; auto).
  destruct H0 as (Hrun & Hd & Hch & Ha & Hdel).
  assert (Hrun1 : status (preSelect s0) = Running)
    by (rewrite (same_status _ _ Hc); exact Hrun).
  assert (Hready : ready StepReq (preSelect s0) = true)
    by (cbn [ready]; rewrite (same_stepReqCh _ _ Hc), Hch; reflexivity).
  rewrite (same_derivation _ _ Hc), (same_stepReqCh _ _ Hc),
    (same_stepAttempts _ _ Hc), (same_delayedStepReq _ _ Hc).
  repeat (split; [ assumption | ]).
  destruct (onStepReq_calls (preSelect s0)) as [l Hl].
  destruct (deliver_newCalls StepReq (preSelect s0) Hrun1 Hready)
    as (l2 & -> & _).
  rewrite (newCalls_app _ _ _ Hl), (same_derivation _ _ Hc), Hd.
  apply in_or_app. left. cbn. auto.
Qed.

(** X14: a state query reads and does not write.  [SyncStatus] answers the
    snapshot of the state the loop is in, the query itself changes nothing
    that a snapshot shows, so that a second query answers the same; the turn
    of the loop that serves it makes no call but, at its head, the
    re-planning of the proposer. *)
Theorem X14_SyncStatus_is_read_only (s : Driver) :
  status s = Running ->
  let after := fst (SyncStatus s) in
  snd (SyncStatus s) = (syncStatus s, None)
  /\ snd (SyncStatus after) = snd (SyncStatus s)
  /\ SameCore s after
  /\ (newCalls s after = []
      \/ exists delay, newCalls s after = [CallPlanNextProposerAction delay]).
Proof.
  intros Hrun after.
  pose proof (deliver_core StateReq s Hrun eq_refl) as Hc.
  cbn [handle fst] in Hc.
  subst after. unfold SyncStatus. cbn [fst snd].
  split; [ reflexivity | ]. split.
  { unfold syncStatus.
    rewrite (same_derivation _ _ Hc), (same_l1State _ _ Hc). reflexivity. }
  split; [ exact Hc | ].
  destruct (deliver_newCalls StateReq s Hrun eq_refl) as (l2 & Hl2 & Hplan).
  rewrite Hl2. cbn [handle fst].
  replace (newCalls s s) with (@nil Call)
    by (unfold newCalls; symmetry; apply skipn_length_self).
  cbn [app].
  destruct Hplan as [-> | [delay ->]]; [ left | right; exists delay ];
    reflexivity.
Qed.

(** C3 (as the code has it): on a tick of the backup-sync ticker with a
    sync client and a block time that is not 0, the pipeline is asked about
    the expected block, which is [(now - L2Time) / BlockTime] for a wall
    clock that is not before genesis.  What is then enqueued is decided by
    [size := end - start]: for [end = start] the size is 0 and nothing is
    enqueued; for [start < end], with [end] below the largest [uint64], the
    numbers [start, start+1, ..., end] are sent in increasing order behind
    what is queued, by non-blocking sends that stop at the first one the
    full channel refuses; for [end < start] nothing is sent either.  The
    loop goes on to its next select. *)
Theorem C3_gap_check_enqueues_by_size
  (now : Z) (cl : SyncClient) (s : Driver) :
  status s = Running ->
  L2SyncCl s = Some cl ->
  0 < rollup.BlockTime (config s) ->
  let L2Time := rollup.L2Time (rollup.Genesis_ (config s)) in
  let BlockTime := rollup.BlockTime (config s) in
  let expected := U64.sub (U64.wrap now) L2Time / BlockTime in
  let start := fst (GetUnsafeQueueGap (derivation s) expected) in
  let end_ := snd (GetUnsafeQueueGap (derivation s) expected) in
  let s' := fst (deliver (AltSyncTick now) s) in
  (U64.InRange now -> 0 <= L2Time <= now ->
   expected = (now - L2Time) / BlockTime)
  /\ (exists rest,
        newCalls s (fst (handle (AltSyncTick now) s))
        = CallGetUnsafeQueueGap expected start end_ :: rest)
  /\ status s' = Running
  /\ (start = end_ -> L2SyncCl s' = Some cl)
  /\ (0 <= start -> start < end_ -> end_ < U64.max ->
      exists ch,
        L2SyncCl s' = Some (mkSyncClient ch)
        /\ cap ch = cap (FetchUnsafeBlock cl)
        /\ buf ch =
             buf (FetchUnsafeBlock cl) ++
             countFrom start
               (Nat.min (free (FetchUnsafeBlock cl))
                  (Z.to_nat (end_ - start + 1))))
  /\ (U64.InRange start -> U64.InRange end_ -> end_ < start ->
      L2SyncCl s' = Some cl).
Proof.
  intros Hrun Hcl Hbt L2Time BlockTime expected start end_ s'.
  pose proof (deliver_core (AltSyncTick now) s Hrun eq_refl) as Hc.
  fold s' in Hc.
  rewrite (same_status _ _ Hc), (same_L2SyncCl _ _ Hc). clear Hc s'.
  split.
  { intros Hnow Hgen. subst expected.
    unfold U64.InRange, U64.sub, U64.wrap, U64.modulus in *.
    rewrite (Z.mod_small now) by lia.
    rewrite (Z.mod_small (now - L2Time)) by lia. reflexivity. }
  assert (Hdiv : U64.div (U64.sub (U64.wrap now) L2Time) BlockTime
                 = Some expected).
  { unfold U64.div.
    replace (BlockTime =? 0) with false by (symmetry; apply Z.eqb_neq; lia).
    reflexivity. }
  cbn [handle fst]. unfold onAltSyncTick. rewrite Hcl.
  unfold checkForGapInUnsafeQueue. fold L2Time BlockTime. rewrite Hdiv.
  destruct (GetUnsafeQueueGap (derivation s) expected) as [st en] eqn:Hgap.
  cbn [fst snd] in start, end_. subst start end_.
  destruct (U64.sub en st >? 0) eqn:Hsize.
  - split.
    { eexists. apply newCalls_app. cbn. repeat rewrite <- app_assoc.
      reflexivity. }
    split; [ exact Hrun | ].
    cbn [L2SyncCl set_L2SyncCl].
    split; [ | split ].
    + intros Heq. exfalso. subst en.
      unfold U64.sub, U64.wrap in Hsize. rewrite Z.sub_diag in Hsize.
      discriminate Hsize.
    + intros Hst Hlt Hmax. eexists. split; [ reflexivity | ].
      split; [ apply fetchLoop_cap | apply fetchLoop_sends; assumption ].
    + intros Hst Hen Hlt. rewrite fetchLoop_unfold.
      replace (st <=? en) with false by (symmetry; apply Z.leb_gt; lia).
      destruct cl; reflexivity.
  - split.
    { eexists. apply newCalls_app. cbn. reflexivity. }
    split; [ exact Hrun | ].
    cbn [L2SyncCl record].
    rewrite Z.gtb_ltb in Hsize. apply Z.ltb_ge in Hsize.
    unfold U64.InRange, U64.sub, U64.wrap, U64.max, U64.modulus in *.
    split; [ | split ].
    + intros _. exact Hcl.
    + intros Hst Hlt Hmax. exfalso.
      rewrite Z.mod_small in Hsize by lia. lia.
    + intros Hst Hen Hlt. exfalso.
      rewrite <- (Z.mod_unique (en - st) (2 ^ 64) (-1) (en - st + 2 ^ 64))
        in Hsize by lia.
      lia.
Qed.

End Properties.

(** ** The configuration check *)

Ltac check_cases :=
  repeat match goal with
    | |- context [if ?a =? ?b then _ else _] =>
        first
          [ replace (a =? b) with false
              by (symmetry; apply Z.eqb_neq; first [ assumption | lia ])
          | replace (a =? b) with true
              by (symmetry; apply Z.eqb_eq; first [ reflexivity | lia ]) ]
    | |- context [if ?a <=? ?b then _ else _] =>
        first
          [ replace (a <=? b) with false by (symmetry; apply Z.leb_gt; lia)
          | replace (a <=? b) with true by (symmetry; apply Z.leb_le; lia) ]
    end;
  try reflexivity.

(** A valid configuration passes the check. *)
Lemma Valid_passes (cfg : rollup.Config) :
  rollup.Valid cfg -> rollup.Check cfg = None.
Proof.
  intros (Hbt & Hct & Hws & Hl1 & Hl2 & Hne & Htime & Hba & Hov & Hsc & Hgl
          & Hin & Hdep & c1 & c2 & Hc1 & Hc2 & Hc12 & Hp1 & Hp2).
  unfold rollup.Check. rewrite Hc1, Hc2. check_cases.
Qed.

(** C9: the check answers one error kind per invalid field, and the kinds
    are pairwise distinct values.  On an otherwise valid configuration, a
    zero block time gives [ErrBlockTimeZero], a proposer window of at most 1
    [ErrInvalidProposerWindowSize], a zero channel timeout
    [ErrMissingChannelTimeout], an L2 genesis hash equal to the L1 one
    [ErrGenesisHashesSame], an L2 chain id equal to the L1 one
    [ErrChainIDsSame], and a chain id that is not positive
    [ErrL1ChainIDNotPositive] or [ErrL2ChainIDNotPositive]; the valid
    configuration itself passes.  Each of the eleven missing fields (a zero
    genesis hash, genesis time, batcher address, overhead, scalar, gas
    limit, batch inbox or deposit contract address, a nil chain id) gives
    the kind named after it, and a configuration that gets any error kind
    is not valid. *)
Theorem C9_Check_error_kinds (cfg : rollup.Config) :
  rollup.Valid cfg ->
  rollup.Check cfg = None
  /\ rollup.Check (rollup.with_BlockTime 0 cfg) = Some rollup.ErrBlockTimeZero
  /\ (forall w : Z, w <= 1 ->
        rollup.Check (rollup.with_ProposerWindowSize w cfg)
        = Some rollup.ErrInvalidProposerWindowSize)
  /\ rollup.Check (rollup.with_ChannelTimeout 0 cfg)
     = Some rollup.ErrMissingChannelTimeout
  /\ rollup.Check
       (rollup.with_GenesisL2Hash (Hash_ (rollup.L1 (rollup.Genesis_ cfg))) cfg)
     = Some rollup.ErrGenesisHashesSame
  /\ rollup.Check (rollup.with_L2ChainID (rollup.L1ChainID cfg) cfg)
     = Some rollup.ErrChainIDsSame
  /\ (forall z : Z, z <= 0 ->
        rollup.Check (rollup.with_L1ChainID (Some z) cfg)
        = Some rollup.ErrL1ChainIDNotPositive)
  /\ (forall z : Z, z <= 0 ->
        rollup.Check (rollup.with_L2ChainID (Some z) cfg)
        = Some rollup.ErrL2ChainIDNotPositive)
  /\ NoDup [rollup.ErrBlockTimeZero; rollup.ErrMissingChannelTimeout;
            rollup.ErrInvalidProposerWindowSize; rollup.ErrMissingGenesisL1Hash;
            rollup.ErrMissingGenesisL2Hash; rollup.ErrGenesisHashesSame;
            rollup.ErrMissingGenesisL2Time; rollup.ErrMissingBatcherAddr;
            rollup.ErrMissingOverhead; rollup.ErrMissingScalar;
            rollup.ErrMissingGasLimit; rollup.ErrMissingBatchInboxAddress;
            rollup.ErrMissingDepositContractAddress; rollup.ErrMissingL1ChainID;
            rollup.ErrMissingL2ChainID; rollup.ErrChainIDsSame;
            rollup.ErrL1ChainIDNotPositive; rollup.ErrL2ChainIDNotPositive]
  /\ rollup.Check (rollup.with_GenesisL1Hash 0 cfg)
     = Some rollup.ErrMissingGenesisL1Hash
  /\ rollup.Check (rollup.with_GenesisL2Hash 0 cfg)
     = Some rollup.ErrMissingGenesisL2Hash
  /\ rollup.Check (rollup.with_GenesisL2Time 0 cfg)
     = Some rollup.ErrMissingGenesisL2Time
  /\ rollup.Check (rollup.with_BatcherAddr 0 cfg)
     = Some rollup.ErrMissingBatcherAddr
  /\ rollup.Check (rollup.with_Overhead 0 cfg) = Some rollup.ErrMissingOverhead
  /\ rollup.Check (rollup.with_Scalar 0 cfg) = Some rollup.ErrMissingScalar
  /\ rollup.Check (rollup.with_GasLimit 0 cfg) = Some rollup.ErrMissingGasLimit
  /\ rollup.Check (rollup.with_BatchInboxAddress 0 cfg)
     = Some rollup.ErrMissingBatchInboxAddress
  /\ rollup.Check (rollup.with_DepositContractAddress 0 cfg)
     = Some rollup.ErrMissingDepositContractAddress
  /\ rollup.Check (rollup.with_L1ChainID None cfg)
     = Some rollup.ErrMissingL1ChainID
  /\ rollup.Check (rollup.with_L2ChainID None cfg)
     = Some rollup.ErrMissingL2ChainID
  /\ (forall (c : rollup.Config) (e : rollup.CheckError),
        rollup.Check c = Some e -> ~ rollup.Valid c).
Proof.
  intros (Hbt & Hct & Hws & Hl1 & Hl2 & Hne & Htime & Hba & Hov & Hsc & Hgl
          & Hin & Hdep & c1 & c2 & Hc1 & Hc2 & Hc12 & Hp1 & Hp2).
  split; [ | split; [ | split; [ | split; [ | split; [ | split;
    [ | split; [ | split; [ | split; [ | split; [ | split; [ | split;
    [ | split; [ | split; [ | split; [ | split; [ | split; [ | split;
    [ | split; [ | split ] ] ] ] ] ] ] ] ] ] ] ] ] ] ] ] ] ] ].
  - unfold rollup.Check. rewrite Hc1, Hc2. check_cases.
  - unfold rollup.Check, rollup.with_BlockTime. cbn. reflexivity.
  - intros w Hw. unfold rollup.Check, rollup.with_ProposerWindowSize. cbn.
    check_cases.
  - unfold rollup.Check, rollup.with_ChannelTimeout. cbn. check_cases.
  - unfold rollup.Check, rollup.with_GenesisL2Hash. cbn. check_cases.
  - unfold rollup.Check, rollup.with_L2ChainID. cbn. rewrite Hc1. check_cases.
  - intros z Hz. unfold rollup.Check, rollup.with_L1ChainID. cbn.
    rewrite Hc2. check_cases.
  - intros z Hz. unfold rollup.Check, rollup.with_L2ChainID. cbn.
    rewrite Hc1. check_cases.
  - repeat (constructor;
            [ cbn; intros H;
              repeat (destruct H as [H | H]; [ discriminate H | ]); exact H
            | ]).
    constructor.
  - unfold rollup.Check, rollup.with_GenesisL1Hash. cbn. check_cases.
  - unfold rollup.Check, rollup.with_GenesisL2Hash. cbn. check_cases.
  - unfold rollup.Check, rollup.with_GenesisL2Time. cbn. check_cases.
  - unfold rollup.Check, rollup.with_BatcherAddr, rollup.with_SystemConfig.
    cbn. check_cases.
  - unfold rollup.Check, rollup.with_Overhead, rollup.with_SystemConfig.
    cbn. check_cases.
  - unfold rollup.Check, rollup.with_Scalar, rollup.with_SystemConfig.
    cbn. check_cases.
  - unfold rollup.Check, rollup.with_GasLimit, rollup.with_SystemConfig.
    cbn. check_cases.
  - unfold rollup.Check, rollup.with_BatchInboxAddress. cbn. check_cases.
  - unfold rollup.Check, rollup.with_DepositContractAddress. cbn. check_cases.
  - unfold rollup.Check, rollup.with_L1ChainID. cbn. check_cases.
  - unfold rollup.Check, rollup.with_L2ChainID. cbn. rewrite Hc1. check_cases.
  - intros c e Hcheck Hvalid.
    rewrite (Valid_passes c Hvalid) in Hcheck. discriminate Hcheck.
Qed.

(** * The theorems at concrete drivers *)

(** A stopped proposer is started at the hash of the unsafe head. *)
Lemma C1_StartProposer_witness :
  let s := Scripted.driver [] 7 (0, 0) true true 4 in
  status s = Running /\ snd (StartProposer 7 s) = None.
Proof.
  cbn zeta. split; [ reflexivity | ].
  apply (proj1 (proj2 (C1_StartProposer
                         (Scripted.driver [] 7 (0, 0) true true 4) 7 eq_refl)
                  eq_refl)).
  split; reflexivity.
Defined.

(** A running proposer is stopped and answers the hash of the unsafe head. *)
Lemma C6_StopProposer_witness :
  let s := Scripted.driver [] 7 (0, 0) true false 4 in
  status s = Running /\ snd (StopProposer s) = (7, None).
Proof.
  cbn zeta. split; [ reflexivity | ].
  apply (proj1 (proj2 (proj2 (C6_StopProposer
                                (Scripted.driver [] 7 (0, 0) true false 4)
                                eq_refl)
                         eq_refl)
                  eq_refl)).
Defined.

(** The proposer fails its build: the loop returns, a later L1 head is not
    received. *)
Lemma C7_proposer_critical_error_witness :
  let s := Scripted.atTick [(None, Some [ErrCritical])] (Some []) in
  let s' := fst (deliver ProposerTick s) in
  status s' = Returned
  /\ run [L1HeadSig (mkL1BlockRef 6 2 5 1700000012); StepReq] s' = s'.
Proof.
  cbn zeta.
  pose proof (C7_proposer_critical_error_terminates
                (Scripted.atTick [(None, Some [ErrCritical])] (Some []))
                _ _ None [ErrCritical] eq_refl eq_refl eq_refl) as H.
  cbn zeta in H. destruct H as (Hst & _ & _ & _ & _ & Hrun).
  split; [ exact Hst | apply Hrun ].
Defined.

(** The proposer builds block 4 and the publish fails: the loop goes on,
    the proposer is still running and the unsafe head is the new block. *)
Lemma C8_publish_error_witness :
  let s := Scripted.atTick [(Some (mkPayload 9 4), None)]
             (Some [Some [New "gossip down"]]) in
  let s' := fst (deliver ProposerTick s) in
  status s' = Running
  /\ driverConfig s' = driverConfig s
  /\ stepAttempts s' = stepAttempts s
  /\ UnsafeL2Head (derivation s') = Scripted.block 9 4.
Proof.
  cbn zeta.
  pose proof (C8_publish_error_is_not_fatal
                (Scripted.atTick [(Some (mkPayload 9 4), None)]
                   (Some [Some [New "gossip down"]]))
                _ _ (mkPayload 9 4) [Some [New "gossip down"]] []
                [New "gossip down"] eq_refl eq_refl eq_refl eq_refl eq_refl)
    as H.
  cbn zeta in H.
  destruct H as (_ & _ & Hst & Hdc & _ & Hsa & _ & _ & _ & Hhead).
  repeat split; assumption.
Defined.

(** Three failed attempts on the counter and no timer pending: one timer of
    200ms is created; with a timer pending, none. *)
Lemma C5_step_request_witness :
  let s := set_stepAttempts 3 (Scripted.driver [] 7 (0, 0) false false 4) in
  delayedStepReq (reqStep s) = Some 200000000
  /\ timersCreated (calls (reqStep (reqStep s))) = 1%nat.
Proof.
  cbn zeta.
  destruct (@C5_step_request_discipline Scripted.collaborators)
    as (_ & _ & Hfirst & Hagain & _).
  set (s := set_stepAttempts 3 (Scripted.driver [] 7 (0, 0) false false 4)).
  assert (H1 : 0 < stepAttempts s) by reflexivity.
  assert (H2 : delayedStepReq s = None) by reflexivity.
  pose proof (Hfirst s H1 H2) as Hs. cbn zeta in Hs.
  rewrite Hs.
  split; [ reflexivity | ].
  match goal with
  | |- context [reqStep ?x] => rewrite (Hagain x 200000000 eq_refl eq_refl)
  end.
  reflexivity.
Defined.

(** A success, a [NotEnoughData] and an [io.EOF], with a new L1 head in
    between: no timer is created. *)
Lemma C4_no_backoff_witness :
  let s := Scripted.driver [None; Some [NotEnoughData]] 7 (0, 0) false false 4 in
  let evs := [StepReq; StepReq; L1HeadSig (mkL1BlockRef 6 2 5 1700000012);
              StepReq] in
  timersCreated (newCalls s (run evs s)) = 0%nat
  /\ delayedStepReq (run evs s) = None
  /\ stepAttempts (run evs s) = 0.
Proof.
  cbn zeta.
  apply (proj2 (proj2 (@C4_no_backoff_without_failure Scripted.collaborators))).
  - reflexivity.
  - reflexivity.
  - vm_compute. repeat constructor.
Defined.

(** The code against C2 as it is stated: the step returns a reset error, the
    pipeline is reset, and afterwards [stepAttempts] is 1, the step-request
    channel is empty and no delayed step is pending. *)
Lemma C2_counterexample :
  let s := Scripted.driver [Some [ErrReset]] 7 (0, 0) false false 4 in
  let s' := fst (deliver StepReq s) in
  status s = Running
  /\ ready StepReq s = true
  /\ classify (snd (Step (derivation s))) = StepReset
  /\ Scripted.resets (derivation s') = 1%nat
  /\ stepAttempts s = 0
  /\ stepAttempts s' = 1
  /\ stepAttempts s' <> 0
  /\ ready StepReq s' = false
  /\ ready DelayedStep s' = false.
Proof. vm_compute. repeat split. discriminate. Qed.

Lemma C2_reset_witness :
  let s := Scripted.driver [Some [ErrReset]] 7 (0, 0) false false 4 in
  let s' := fst (deliver StepReq s) in
  stepAttempts s' = 1 /\ buf (stepReqCh s') = [] /\ delayedStepReq s' = None.
Proof.
  cbn zeta.
  pose proof (proj1 C2_reset_leaves_retry_state
                (Scripted.driver [Some [ErrReset]] 7 (0, 0) false false 4)
                eq_refl eq_refl eq_refl) as H.
  cbn zeta in H. destruct H as (_ & _ & Ha & Hch & Hd & _).
  rewrite Ha, Hch, Hd. repeat split.
Defined.

(** Scenario S5 with a gap of one block: at 20 seconds after genesis the
    pipeline is asked about block 10, answers the range [4, 4], and block 4
    is not requested from the backup client. *)
Lemma C3_single_block_gap_witness :
  let s := Scripted.driver [] 7 (4, 4) false false 8 in
  let s' := fst (handle (AltSyncTick 1700000020) s) in
  L2SyncCl s' = Some (mkSyncClient (mkChan 8%nat []))
  /\ newCalls s s' = [CallGetUnsafeQueueGap 10 4 4].
Proof.
  cbn zeta.
  pose proof (C3_single_block_gap_not_requested 1700000020
                (mkSyncClient (mkChan 8%nat []))
                (Scripted.driver [] 7 (4, 4) false false 8) 10 4
                eq_refl eq_refl eq_refl) as H.
  cbn zeta in H. destruct H as (Hcl & Hcalls & _).
  split; assumption.
Defined.

(** Scenario S5 as the spec has it: the range [4, 10] is enqueued in
    order; with room for three numbers only, the first three are. *)
Example S5_gap_fill :
  let s := Scripted.driver [] 7 (4, 10) false false 8 in
  let t := Scripted.driver [] 7 (4, 10) false false 3 in
  L2SyncCl (fst (deliver (AltSyncTick 1700000020) s))
    = Some (mkSyncClient (mkChan 8%nat [4; 5; 6; 7; 8; 9; 10]))
  /\ L2SyncCl (fst (deliver (AltSyncTick 1700000020) t))
    = Some (mkSyncClient (mkChan 3%nat [4; 5; 6])).
Proof. vm_compute. split; reflexivity. Qed.

(** A wall clock 100 seconds before genesis: the pipeline is asked about
    block (2^64 - 100) / 2. *)
Lemma C10_gap_check_wraps_witness :
  let s := Scripted.driver [] 7 (5, 2) false false 8 in
  let s' := checkForGapInUnsafeQueue 1699999900 (mkSyncClient (mkChan 8%nat [])) s in
  status s' = Running
  /\ (exists rest,
        newCalls s s' = CallGetUnsafeQueueGap 9223372036854775758 5 2 :: rest)
  /\ U64.sub 2 5 = 18446744073709551613.
Proof.
  cbn zeta.
  pose proof (C10_gap_check_wraps 1699999900 (mkSyncClient (mkChan 8%nat []))
                (Scripted.driver [] 7 (5, 2) false false 8)) as H.
  cbn zeta in H.
  assert (H1 : U64.InRange 1699999900) by (unfold U64.InRange, U64.modulus; lia).
  assert (H2 : U64.InRange 1700000000) by (unfold U64.InRange, U64.modulus; lia).
  assert (H3 : 1699999900 < 1700000000) by lia.
  assert (H4 : 0 < 2) by lia.
  destruct (H H1 H2 H3 H4) as (_ & _ & _ & Hst & Hcall & _).
  split; [ exact Hst | ]. split; [ exact Hcall | reflexivity ].
Defined.

(** The configuration of the tests is valid, and each of the listed
    modifications gets its error kind. *)
Lemma C9_Check_witness :
  rollup.Valid Scripted.cfg
  /\ rollup.Check Scripted.cfg = None
  /\ rollup.Check (rollup.with_BlockTime 0 Scripted.cfg)
     = Some rollup.ErrBlockTimeZero.
Proof.
  assert (Hv : rollup.Valid Scripted.cfg).
  { unfold rollup.Valid. cbn.
    repeat (split; [ lia | ]).
    exists 900, 901. repeat split; lia. }
  split; [ exact Hv | ].
  destruct (C9_Check_error_kinds Scripted.cfg Hv) as (Hok & Hbt & _).
  split; assumption.
Defined.

(** The sentinels themselves, and wrapped ones: a wrapped [io.EOF] is not
    [io.EOF], a temporary error that wraps a reset error is a reset. *)
Example classify_sentinels :
  classify (Some [IoEOF]) = StepEOF
  /\ classify (Some [NotEnoughData]) = StepNotEnoughData
  /\ classify (Some [ErrReset]) = StepReset
  /\ classify (Some [ErrTemporary]) = StepTemporary
  /\ classify (Some [ErrCritical]) = StepCritical
  /\ classify None = StepOk
  /\ classify (Some [New "engine unreachable"; IoEOF]) = StepOther
  /\ classify (Some [ErrTemporary; ErrReset]) = StepReset.
Proof. repeat split. Qed.

(** Scenario S2: three temporary errors, then a success.  The step counter
    seen by the four steps is 0, 1, 2, 3; three timers are created, of
    50ms, 100ms and 200ms; the success clears the counter. *)
Example S2_transient_failure_then_success :
  let s := Scripted.driver
             [Some [ErrTemporary]; Some [ErrTemporary]; Some [ErrTemporary]; None]
             7 (0, 0) false false 4 in
  let s1 := run [StepReq] s in
  let s2 := run [DelayedStep; StepReq] s1 in
  let s3 := run [DelayedStep; StepReq] s2 in
  let s4 := run [DelayedStep; StepReq] s3 in
  (stepAttempts s, stepAttempts s1, stepAttempts s2, stepAttempts s3,
   stepAttempts s4) = (0, 1, 2, 3, 0)
  /\ (delayedStepReq s1, delayedStepReq s2, delayedStepReq s3, delayedStepReq s4)
     = (Some 50000000, Some 100000000, Some 200000000, None)
  /\ timersCreated (calls s4) = 3%nat.
Proof. vm_compute. repeat split. Qed.

(** Scenario S3: a reset error resets the pipeline once; the step that a
    later L1 head requests waits for the timer of the counted attempt. *)
Example S3_reset_on_corruption :
  let s := Scripted.driver [Some [ErrReset]] 7 (0, 0) false false 4 in
  let s1 := run [StepReq] s in
  let s2 := run [L1HeadSig (mkL1BlockRef 6 2 5 1700000012)] s1 in
  Scripted.resets (derivation s1) = 1%nat
  /\ status s1 = Running
  /\ buf (stepReqCh s2) = []
  /\ delayedStepReq s2 = Some 50000000.
Proof. vm_compute. repeat split. Qed.

(** Scenario S4: with the proposer enabled and stopped on head 7, a start
    at hash 8 is refused and changes nothing, a start at 7 succeeds, and the
    stop that follows answers 7 and leaves the proposer stopped. *)
Example S4_start_stop_gating :
  let s := Scripted.driver [] 7 (0, 0) true true 4 in
  let started := fst (StartProposer 7 s) in
  snd (StartProposer 8 s) = Some [BlockHashMismatch 7 8]
  /\ ProposerStopped (driverConfig (fst (StartProposer 8 s))) = true
  /\ calls (fst (StartProposer 8 s)) = calls s
  /\ snd (StartProposer 7 s) = None
  /\ ProposerStopped (driverConfig started) = false
  /\ snd (StartProposer 7 started) = Some [New "proposer already running"]
  /\ snd (StopProposer started) = (7, None)
  /\ ProposerStopped (driverConfig (fst (StopProposer started))) = true
  /\ snd (StopProposer (fst (StopProposer started)))
     = (0, Some [New "proposer not running"]).
Proof. vm_compute. repeat split. Qed.

(** What the check accepts is exactly the valid configurations. *)
Lemma Check_None_Valid (cfg : rollup.Config) :
  rollup.Check cfg = None -> rollup.Valid cfg.
Proof.
  unfold rollup.Check, rollup.Valid.
  repeat match goal with
    | |- (if ?a =? ?b then _ else _) = None -> _ =>
        destruct (Z.eqb_spec a b); [ discriminate | ]
    | |- (if ?a <=? ?b then _ else _) = None -> _ =>
        destruct (Z.leb_spec a b); [ discriminate | ]
    end.
  destruct (rollup.L1ChainID cfg) as [c1 | ]; [ | discriminate ].
  destruct (rollup.L2ChainID cfg) as [c2 | ]; [ | discriminate ].
  repeat match goal with
    | |- (if ?a =? ?b then _ else _) = None -> _ =>
        destruct (Z.eqb_spec a b); [ discriminate | ]
    | |- (if ?a <=? ?b then _ else _) = None -> _ =>
        destruct (Z.leb_spec a b); [ discriminate | ]
    end.
  intros _.
  repeat (split; [ assumption | ]).
  exists c1, c2. repeat split; first [ assumption | lia ].
Qed.

(** * The further theorems at concrete drivers *)

(** Room for three numbers and the range [4, 10]: 4, 5 and 6 are enqueued. *)
Lemma X1_gap_check_enqueues_range_witness :
  exists ch,
    L2SyncCl (fst (handle (AltSyncTick 1700000020)
                     (Scripted.driver [] 7 (4, 10) false false 3)))
    = Some (mkSyncClient ch)
    /\ buf ch = [4; 5; 6].
Proof.
  destruct (X1_gap_check_enqueues_range 1700000020
              (mkSyncClient (mkChan 3%nat []))
              (Scripted.driver [] 7 (4, 10) false false 3) 10 4 10
              eq_refl eq_refl eq_refl)
    as (ch & Hcl & Hbuf);
    [ lia | lia | unfold U64.max, U64.modulus; lia | ].
  exists ch. split; [ exact Hcl | exact Hbuf ].
Defined.

Lemma X2_gap_check_keeps_channel_witness :
  exists ch l,
    L2SyncCl (fst (handle (AltSyncTick 1700000020)
                     (Scripted.driver [] 7 (4, 10) false false 3)))
    = Some (mkSyncClient ch)
    /\ cap ch = 3%nat
    /\ buf ch = [] ++ l
    /\ (List.length (buf ch) <= cap ch)%nat.
Proof.
  apply (X2_gap_check_keeps_channel 1700000020
           (mkSyncClient (mkChan 3%nat []))
           (Scripted.driver [] 7 (4, 10) false false 3) eq_refl).
  cbn. lia.
Defined.

(** A block time of 0: the tick of the backup-sync ticker kills the loop. *)
Lemma X3_gap_check_zero_block_time_witness :
  let s' := fst (deliver (AltSyncTick 1700000020) (Scripted.zeroBlockTime 4)) in
  status s' = Panicked /\ run [StepReq; Done] s' = s'.
Proof.
  cbn zeta.
  destruct (X3_gap_check_zero_block_time 1700000020
              (mkSyncClient (mkChan 4%nat []))
              (Scripted.zeroBlockTime 4) eq_refl eq_refl eq_refl)
    as (Hst & _ & _ & _ & Hrun).
  split; [ exact Hst | apply Hrun ].
Defined.

(** The range ends at 2^64 - 1: after the last number the loop sends 0. *)
Lemma X4_gap_check_bound_at_max_witness :
  exists ch,
    L2SyncCl (fst (handle (AltSyncTick 1700000020)
                     (Scripted.driver [] 7
                        (18446744073709551614, 18446744073709551615)
                        false false 3)))
    = Some (mkSyncClient ch)
    /\ buf ch = [18446744073709551614; 18446744073709551615; 0].
Proof.
  destruct (X4_gap_check_bound_at_max 1700000020
              (mkSyncClient (mkChan 3%nat []))
              (Scripted.driver [] 7
                 (18446744073709551614, 18446744073709551615) false false 3)
              10 18446744073709551614 eq_refl)
    as (ch & Hcl & Hbuf & _).
  - cbn. lia.
  - reflexivity.
  - reflexivity.
  - unfold U64.max, U64.modulus. lia.
  - exists ch. split; [ exact Hcl | exact Hbuf ].
Defined.

(** A disabled proposer, a tick of its timer and a start request sent past
    the public API: nothing is built. *)
Lemma X5_disabled_proposer_witness :
  proposerRuns
    (calls (run [L1HeadSig (mkL1BlockRef 6 2 5 1700000012); TimerExpired;
                 ProposerTick; StartProposerReq 7; ProposerTick]
              (Scripted.driver [] 7 (0, 0) false true 4)))
  = 0%nat.
Proof.
  apply (@X5_disabled_proposer_never_builds Scripted.collaborators Scripted.l1
           (Scripted.mkPipe [] (Scripted.block 7 3) true (0, 0) 0)
           Scripted.cfg (mkDriverConfig 0 0 false true)
           (Some (mkSyncClient (mkChan 4%nat [])))
           (Scripted.mkBuilder 2000000000 (Scripted.block 7 3) []) (Some []) tt).
  reflexivity.
Defined.

Lemma X6_stopped_proposer_witness :
  let s := Scripted.atTick [(Some (mkPayload 9 4), None)] (Some []) in
  let evs := [TimerExpired; ProposerTick;
              L1HeadSig (mkL1BlockRef 6 2 5 1700000012); ProposerTick] in
  proposerRuns (calls (run evs (fst (StopProposer s)))) = 0%nat.
Proof.
  cbn zeta.
  destruct (X6_stopped_proposer_never_builds
              (Scripted.atTick [(Some (mkPayload 9 4), None)] (Some []))
              [TimerExpired; ProposerTick;
               L1HeadSig (mkL1BlockRef 6 2 5 1700000012); ProposerTick]
              eq_refl eq_refl eq_refl eq_refl)
    as (_ & Hruns & _).
  exact Hruns.
Defined.

Lemma X7_stop_then_start_witness :
  let s := Scripted.atTick [] (Some []) in
  fst (snd (StopProposer s)) = 7
  /\ snd (StartProposer 7 (fst (StopProposer s))) = None.
Proof.
  cbn zeta.
  destruct (X7_stop_then_start_round_trip (Scripted.atTick [] (Some []))
              eq_refl eq_refl eq_refl)
    as (_ & _ & Hstart & _).
  split; [ reflexivity | exact Hstart ].
Defined.

(** After a temporary error a delayed step is pending. *)
Lemma X8_step_is_followed_witness :
  let s := Scripted.driver [Some [ErrTemporary]] 7 (0, 0) false false 4 in
  let s' := fst (deliver StepReq s) in
  status s' = Running
  /\ (ready StepReq s' = true \/ ready DelayedStep s' = true).
Proof.
  cbn zeta.
  apply X8_step_is_followed_by_a_request.
  - reflexivity.
  - reflexivity.
  - split; [ reflexivity | cbn; lia ].
  - cbn. discriminate.
  - cbn. discriminate.
  - cbn. discriminate.
Defined.

(** The first failure schedules the retry of attempt 1, after 50ms. *)
Lemma X9_failed_step_witness :
  let s := Scripted.driver [Some [ErrTemporary]] 7 (0, 0) false false 4 in
  let s' := fst (deliver StepReq s) in
  stepAttempts s' = 1 /\ delayedStepReq s' = Some 50000000.
Proof.
  cbn zeta.
  destruct (X9_failed_step_schedules_backoff
              (Scripted.driver [Some [ErrTemporary]] 7 (0, 0) false false 4)
              eq_refl eq_refl (or_introl eq_refl))
    as (Ha & _ & Hnone & _).
  - cbn. lia.
  - split; [ exact Ha | ].
    destruct (Hnone eq_refl) as [Hd _]. exact Hd.
Defined.

Lemma X10_critical_step_error_witness :
  let s := Scripted.driver [Some [ErrCritical]] 7 (0, 0) false false 4 in
  let s' := fst (deliver StepReq s) in
  status s' = Returned
  /\ run [L1HeadSig (mkL1BlockRef 6 2 5 1700000012); StepReq] s' = s'.
Proof.
  cbn zeta.
  destruct (X10_critical_step_error_terminates
              (Scripted.driver [Some [ErrCritical]] 7 (0, 0) false false 4)
              eq_refl eq_refl eq_refl)
    as (Hst & _ & _ & _ & _ & Hrun).
  split; [ exact Hst | apply Hrun ].
Defined.

(** Steps, signals and a timer tick leave [ProposerStopped] as it was. *)
Lemma X11_settings_witness :
  let s := Scripted.driver [None] 7 (0, 0) true true 4 in
  let evs := [StepReq; L1HeadSig (mkL1BlockRef 6 2 5 1700000012);
              TimerExpired; StepReq] in
  ProposerEnabled (driverConfig (run evs s)) = true
  /\ ProposerStopped (driverConfig (run evs s)) = true.
Proof.
  cbn zeta.
  destruct (X11_settings_are_immutable
              [StepReq; L1HeadSig (mkL1BlockRef 6 2 5 1700000012);
               TimerExpired; StepReq]
              (Scripted.driver [None] 7 (0, 0) true true 4))
    as (_ & Hen & _ & _ & Hst).
  split; [ exact Hen | exact (Hst eq_refl) ].
Defined.

Lemma X12_one_build_per_expiry_witness :
  let s := Scripted.atTick [(Some (mkPayload 9 4), None)] (Some []) in
  let s' := fst (deliver ProposerTick s) in
  ready ProposerTick s' = false
  /\ proposerRuns (calls s') = 1%nat.
Proof.
  cbn zeta.
  destruct (X12_one_build_per_expiry
              (Scripted.atTick [(Some (mkPayload 9 4), None)] (Some []))
              eq_refl eq_refl eq_refl)
    as (_ & Hready & _ & _ & Hruns & _).
  split; [ exact Hready | exact Hruns ].
Defined.

Lemma X13_payload_is_visible_witness :
  let s := Scripted.driver [] 7 (0, 0) false false 4 in
  let s1 := fst (deliver (UnsafePayload (mkPayload 9 4)) s) in
  status s1 = Running
  /\ (ready StepReq s1 = true \/ ready DelayedStep s1 = true).
Proof.
  cbn zeta.
  destruct (X13_payload_is_visible_to_next_step (mkPayload 9 4)
              (Scripted.driver [] 7 (0, 0) false false 4) eq_refl)
    as (Hrun & _ & Hnext & _).
  - split; [ reflexivity | cbn; lia ].
  - split; [ exact Hrun | exact Hnext ].
Defined.

Lemma X14_SyncStatus_witness :
  let s := Scripted.driver [] 7 (0, 0) false false 4 in
  UnsafeL2 (fst (snd (SyncStatus s))) = Scripted.block 7 3
  /\ snd (SyncStatus (fst (SyncStatus s))) = snd (SyncStatus s).
Proof.
  cbn zeta.
  destruct (X14_SyncStatus_is_read_only
              (Scripted.driver [] 7 (0, 0) false false 4) eq_refl)
    as (_ & Hagain & _).
  split; [ reflexivity | exact Hagain ].
Defined.

(** The code against C3 as it is stated.  The pipeline answers the range
    [4, 4], which has one block in it, and block 4 is not enqueued although
    the channel is empty; and for the range that ends at the largest
    [uint64] the sends do not stop at its end: 0 follows. *)
Lemma C3_counterexample :
  let s := Scripted.driver [] 7 (4, 4) false false 8 in
  let s' := fst (deliver (AltSyncTick 1700000020) s) in
  let t :=
    Scripted.driver [] 7 (18446744073709551614, 18446744073709551615)
      false false 3 in
  let t' := fst (deliver (AltSyncTick 1700000020) t) in
  status s = Running
  /\ GetUnsafeQueueGap (derivation s) 10 = (4, 4)
  /\ L2SyncCl s = Some (mkSyncClient (mkChan 8%nat []))
  /\ L2SyncCl s' = Some (mkSyncClient (mkChan 8%nat []))
  /\ newCalls s s' = [CallGetUnsafeQueueGap 10 4 4]
  /\ L2SyncCl t'
     = Some (mkSyncClient
               (mkChan 3%nat
                  [18446744073709551614; 18446744073709551615; 0])).
Proof. vm_compute. repeat split. Qed.

(** Scenario S5 with room for three numbers: at 20 seconds after genesis
    the pipeline is asked about block 10 and answers [4, 10]; 4, 5 and 6
    are enqueued and the rest is dropped. *)
Lemma C3_gap_check_enqueues_witness :
  let s := Scripted.driver [] 7 (4, 10) false false 3 in
  let s' := fst (deliver (AltSyncTick 1700000020) s) in
  status s' = Running
  /\ exists ch, L2SyncCl s' = Some (mkSyncClient ch) /\ buf ch = [4; 5; 6].
Proof.
  cbn zeta.
  pose proof (C3_gap_check_enqueues_by_size 1700000020
                (mkSyncClient (mkChan 3%nat []))
                (Scripted.driver [] 7 (4, 10) false false 3)
                eq_refl eq_refl eq_refl) as H.
  cbn zeta in H. destruct H as (_ & _ & Hst & _ & Hsend & _).
  split; [ exact Hst | ].
  destruct Hsend as (ch & Hcl & _ & Hbuf).
  - cbn. lia.
  - cbn. lia.
  - unfold U64.max, U64.modulus. cbn. lia.
  - exists ch. split; [ exact Hcl | exact Hbuf ].
Defined.
